(** * RiskGuard agent executor: a shallow embedding of
      [riskguard/agent_executor.py] and the properties of [execute].

    The executor receives an A2A request, resolves an ADK session, runs the
    ADK agent, scans the agent's events for the [risk_check_result] function
    response and answers with one message on the event queue.

    The collaborators the executor talks to (the ADK session service, the
    ADK runner's event stream, the A2A event queue) are libraries outside
    the repository.  They are modelled as an environment: the session
    service and the runner are arbitrary operations that may return, return
    nothing, or raise an [Exception]; the event queue is a sink.  Every call
    the executor makes on a collaborator is recorded, in order, in a trace,
    and the properties of [execute] are stated on that trace.

    The module [General] embeds [execute] once more for environments
    without these assumptions: a queue and a [json.dumps] that may raise,
    and collaborators that may raise any [BaseException].  The two
    embeddings agree where the assumptions hold
    ([general_execute_agrees]). *)

From Stdlib Require Import String List ZArith Bool.
From stdpp Require Import gmap strings.
Import ListNotations.
Local Open Scope string_scope.
Local Open Scope list_scope.
Set Warnings "-register-all,-notation-overridden".

(** ** Python values *)

(** The [Any] of a [dict[str, Any]] that travels in a data part or in a
    function response: JSON-shaped values.  A dict keeps insertion order,
    hence the association list. Finite floats are [m * 2^e]. *)
Inductive value : Type :=
| VNone
| VBool (b : bool)
| VInt (n : Z)
| VFloat (m e : Z)
| VStr (s : string)
| VList (l : list value)
| VDict (d : list (string * value)).

Definition dict : Type := list (string * value).

(** [k in d] *)
Definition dict_contains (k : string) (d : dict) : bool :=
  existsb (fun kv => String.eqb (fst kv) k) d.

(** Python truth value testing, as [if x] / [not x] / [x and y] use it. *)
Class Truthy (A : Type) := truthy : A -> bool.

#[global] Instance truthy_string : Truthy string :=
  fun s => negb (String.eqb s "").
#[global] Instance truthy_list {A} : Truthy (list A) :=
  fun l => match l with [] => false | _ :: _ => true end.
#[global] Instance truthy_option {A} `{Truthy A} : Truthy (option A) :=
  fun o => match o with None => false | Some a => truthy a end.

(** ** Exceptions *)

(** Instances of [Exception]: the two the executor raises itself and any
    other one a collaborator raises, with its class name and message. *)
Inductive exn : Type :=
| ValueError (msg : string)
| ConnectionError (msg : string)
| OtherException (cls msg : string).

(** [str(e)], what [f"{e}"] prints. *)
Definition str (e : exn) : string :=
  match e with
  | ValueError msg | ConnectionError msg | OtherException _ msg => msg
  end.

(** [f"{x}"] for an optional string. *)
Definition fmt (x : option string) : string :=
  match x with Some s => s | None => "None" end.

Inductive result (A : Type) : Type :=
| Ok (a : A)
| Raised (e : exn).
Arguments Ok {A} a.
Arguments Raised {A} e.

(** ** A2A types *)

Module a2a.
Inductive PartRoot : Type :=
| TextPart (text : string)
| FilePart (file : string)
| DataPart (data : dict).

Record Part : Type := { root : PartRoot }.

Inductive Role : Type := user | agent.

Record Message : Type := {
  role : Role;
  parts : list Part;
  context_id : option string;
  task_id : option string
}.

(** [a2a.utils.message.new_agent_parts_message] (the fresh [message_id]
    it draws is left out). *)
Definition new_agent_parts_message (parts : list Part)
    (context_id task_id : option string) : Message :=
  {| role := agent; parts := parts;
     context_id := context_id; task_id := task_id |}.
End a2a.

Record RequestContext : Type := {
  context_id : option string;
  task_id : option string;
  message : option a2a.Message
}.

(** ** ADK / genai types *)

Module genai_types.
Record FunctionResponse : Type := {
  name : option string;
  response : value
}.

Record Part : Type := {
  text : option string;
  function_response : option FunctionResponse
}.

Record Content : Type := { parts : list Part }.
End genai_types.

Record Event : Type := { content : option genai_types.Content }.

Record Session : Type := {
  id : string;
  session_app_name : string;
  session_user_id : string;
  state : dict
}.

(** Objects are true. *)
#[global] Instance truthy_session : Truthy Session := fun _ => true.
#[global] Instance truthy_content : Truthy genai_types.Content := fun _ => true.
#[global] Instance truthy_function_response :
  Truthy genai_types.FunctionResponse := fun _ => true.
#[global] Instance truthy_message : Truthy a2a.Message := fun _ => true.

(** What [runner.run_async(...)] returns: an async generator, consumed one
    event at a time.  It yields an event, ends, or raises. *)
Inductive AsyncGenerator : Type :=
| StopAsyncIteration
| Raises (e : exn)
| Yields (ev : Event) (rest : AsyncGenerator).

(** ** Calls on the collaborators *)

Inductive call : Type :=
| get_session_call (app_name user_id session_id : string)
| create_session_call (app_name user_id session_id : string) (state : dict)
| run_async_call (user_id : string) (session_id : option string)
    (new_message : genai_types.Content)
| anext_call (ev : Event)
| enqueue_event_call (m : a2a.Message)
| close_call.

Definition is_session_call (c : call) : bool :=
  match c with
  | get_session_call _ _ _ | create_session_call _ _ _ _ => true
  | _ => false
  end.


Definition is_create_session (c : call) : bool :=
  match c with create_session_call _ _ _ _ => true | _ => false end.

Definition is_engine_call (c : call) : bool :=
  match c with
  | run_async_call _ _ _ | anext_call _ => true
  | _ => false
  end.

Definition is_close (c : call) : bool :=
  match c with close_call => true | _ => false end.

(** The messages a trace puts on the event queue, in order. *)
Fixpoint enqueued (t : list call) : list a2a.Message :=
  match t with
  | [] => []
  | enqueue_event_call m :: t' => m :: enqueued t'
  | _ :: t' => enqueued t'
  end.

(** The events a trace pulls from the runner's generator, in order. *)
Fixpoint consumed (t : list call) : list Event :=
  match t with
  | [] => []
  | anext_call ev :: t' => ev :: consumed t'
  | _ :: t' => consumed t'
  end.

Definition count (p : call -> bool) (t : list call) : nat :=
  List.length (List.filter p t).

(** The verdict a message carries: the data of its first part. *)
Definition verdict_of (m : a2a.Message) : option dict :=
  match a2a.parts m with
  | {| a2a.root := a2a.DataPart d |} :: _ => Some d
  | _ => None
  end.

(** ** The monad of the executor

    A computation reads and updates the state [σ] of the session service,
    returns or raises, and reports the calls it made. *)

Section Monad.
Context {σ : Type}.

Definition M (A : Type) : Type := σ -> result A * σ * list call.

Definition ret {A} (a : A) : M A := fun s => (Ok a, s, []).

Definition raise {A} (e : exn) : M A := fun s => (Raised e, s, []).

Definition bind {A B} (m : M A) (k : A -> M B) : M B :=
  fun s =>
    match m s with
    | (Ok a, s1, t1) =>
        match k a s1 with (r, s2, t2) => (r, s2, t1 ++ t2) end
    | (Raised e, s1, t1) => (Raised e, s1, t1)
    end.

(** [try: body  except Exception as e: handler e] *)
Definition try_except {A} (body : M A) (handler : exn -> M A) : M A :=
  fun s =>
    match body s with
    | (Ok a, s1, t1) => (Ok a, s1, t1)
    | (Raised e, s1, t1) =>
        match handler e s1 with (r, s2, t2) => (r, s2, t1 ++ t2) end
    end.

(** [try: body  finally: final]: [final] runs on both exits; what
    [body] returned or raised stands unless [final] raises. *)
Definition try_finally {A} (body : M A) (final : M unit) : M A :=
  fun s =>
    match body s with
    | (r, s1, t1) =>
        match final s1 with
        | (Ok _, s2, t2) => (r, s2, t1 ++ t2)
        | (Raised e, s2, t2) => (Raised e, s2, t1 ++ t2)
        end
    end.

(** A call on the event queue: [enqueue_event] and [close] hand the call
    to the queue, a sink that takes it and returns nothing. *)
Definition emit (c : call) : M unit := fun s => (Ok tt, s, [c]).

(** A call on the session service: recorded, then run on the store. *)
Definition invoke {A} (c : call) (op : σ -> result A * σ) : M A :=
  fun s => match op s with (r, s1) => (r, s1, [c]) end.
End Monad.
Arguments M σ A : clear implicits.

Notation "x <- m ;; k" := (bind m (fun x => k))
  (at level 100, m at next level, right associativity).
Notation "m ;; k" := (bind m (fun _ => k))
  (at level 100, right associativity).

Definition outcome {σ A} (r : result A * σ * list call) : result A := fst (fst r).
Definition store {σ A} (r : result A * σ * list call) : σ := snd (fst r).
Definition trace {σ A} (r : result A * σ * list call) : list call := snd r.

(** ** The ADK collaborators *)

(** The session service of the runner, over its own state [σ].  Either
    operation returns a session, returns [None], or raises. *)
Record SessionService (σ : Type) : Type := {
  get_session : string -> string -> string -> σ -> result (option Session) * σ;
  create_session :
    string -> string -> string -> dict -> σ -> result (option Session) * σ
}.
Arguments get_session {σ} _ _ _ _ _.
Arguments create_session {σ} _ _ _ _ _ _.

(** The agent behind the runner: from the application name, the user, the
    session id, the new message and the sessions it finds, the events it
    will produce. *)
Definition Agent (σ : Type) : Type :=
  string -> string -> option string -> genai_types.Content -> σ ->
  AsyncGenerator.

Record Runner (σ : Type) : Type := {
  app_name : string;
  agent : Agent σ;
  session_service : SessionService σ
}.
Arguments app_name {σ} _.
Arguments agent {σ} _.
Arguments session_service {σ} _.

(** [runner.run_async(user_id=..., session_id=..., new_message=...)]:
    calling an async generator function runs none of its body; the events
    come when the generator is iterated. *)
Definition run_async {σ} (runner : Runner σ) (user_id : string)
    (session_id : option string) (new_message : genai_types.Content)
  : M σ AsyncGenerator :=
  fun s =>
    (Ok (agent runner (app_name runner) user_id session_id new_message s),
     s, [run_async_call user_id session_id new_message]).

(** ** [RiskGuardAgentExecutor] *)

Record RiskGuardAgentExecutor (σ : Type) : Type := {
  _adk_agent : Agent σ;
  _adk_runner : Runner σ
}.
Arguments _adk_agent {σ} _.
Arguments _adk_runner {σ} _.

(** [__init__], lines 21-29.  The module's [root_agent] and the
    [InMemorySessionService()] it builds are its two inputs here. *)
Definition __init__ {σ} (riskguard_adk_agent : Agent σ)
    (InMemorySessionService : SessionService σ) : RiskGuardAgentExecutor σ :=
  {| _adk_agent := riskguard_adk_agent;
     _adk_runner :=
       {| app_name := "riskguard_adk_runner";
          agent := riskguard_adk_agent;
          session_service := InMemorySessionService |} |}.

Section Executor.
Context {σ : Type}.

(** [json.dumps] on the data of a data part. *)
Variable json_dumps : dict -> string.

Variable self : RiskGuardAgentExecutor σ.

(** Lines 39-43: the payload is the data of the first part of the message,
    when there is a message, it has parts, and the first is a data part. *)
Definition agent_input_data_of (context : RequestContext) : option dict :=
  match message context with
  | Some m =>
      if truthy (message context) && truthy (a2a.parts m) then
        match a2a.parts m with
        | p :: _ =>
            match a2a.root p with
            | a2a.DataPart data => Some data
            | _ => None
            end
        | [] => None
        end
      else None
  | None => None
  end.

(** Lines 37 and 50-52: the two validation errors. *)
Definition missing_context_id : exn :=
  ValueError "Context ID is missing, cannot execute.".

Definition missing_payload : exn :=
  ValueError "Missing 'trade_proposal' or 'portfolio_state' in data payload".

(** Lines 45-52: the payload check; it hands on the payload it accepted. *)
Definition check_payload (agent_input_data : option dict) : M σ dict :=
  match agent_input_data with
  | Some data =>
      if negb (truthy agent_input_data)
         || negb (dict_contains "trade_proposal" data)
         || negb (dict_contains "portfolio_state" data)
      then raise missing_payload
      else ret data
  | None => raise missing_payload
  end.

(** Lines 65-110: get the session, create it when there is none. An
    exception of either call is logged and leaves [session = None]. *)
Definition ensure_session (session_id_for_adk : option string)
  : M σ (option Session) :=
  let runner := _adk_runner self in
  match session_id_for_adk with
  | Some sid =>
      if truthy session_id_for_adk then
        session <- try_except
                     (invoke (get_session_call (app_name runner) "a2a_user" sid)
                        (get_session (session_service runner)
                           (app_name runner) "a2a_user" sid))
                     (fun e_get => ret None) ;;
        if negb (truthy session) then
          try_except
            (invoke (create_session_call (app_name runner) "a2a_user" sid [])
               (create_session (session_service runner)
                  (app_name runner) "a2a_user" sid []))
            (fun e_create => ret None)
        else ret session
      else ret None
  | None => ret None
  end.

(** Lines 120-123. *)
Definition default_result : dict :=
  [("approved", VBool false);
   ("reason", VStr "Agent did not produce a result.")].

(** Lines 131-138: the response the loop adopts from [first_part], if
    any: a function response named [risk_check_result] whose response is
    a dict. *)
Definition part_result (first_part : genai_types.Part) : option dict :=
  match genai_types.function_response first_part with
  | Some fr =>
      if truthy (genai_types.function_response first_part)
         && match genai_types.name fr with
            | Some n => String.eqb n "risk_check_result"
            | None => false
            end
      then
        match genai_types.response fr with
        | VDict response_data => Some response_data
        | _ => None
        end
      else None
  | None => None
  end.

(** Lines 129-138: the response the loop adopts at [event], if any. *)
Definition risk_check_result_of (event : Event) : option dict :=
  match content event with
  | Some c =>
      if truthy (content event) && truthy (genai_types.parts c) then
        match genai_types.parts c with
        | first_part :: _ => part_result first_part
        | [] => None
        end
      else None
  | None => None
  end.

(** Lines 124-139: the [async for] over the runner's events.  Each event
    pulled is recorded; [break] leaves the rest of the generator alone. *)
Fixpoint consume (events : AsyncGenerator) (risk_result_dict : dict)
  : M σ dict :=
  match events with
  | StopAsyncIteration => ret risk_result_dict
  | Raises e => raise e
  | Yields event rest =>
      emit (anext_call event) ;;
      match risk_check_result_of event with
      | Some response_data => ret response_data
      | None => consume rest risk_result_dict
      end
  end.

(** Lines 152-165: the message of the [except] branch. *)
Definition error_message (context : RequestContext) (e : exn) : a2a.Message :=
  a2a.new_agent_parts_message
    [ {| a2a.root :=
           a2a.DataPart
             [("approved", VBool false);
              ("reason", VStr ("An internal error occurred: " ++ str e))] |} ]
    (context_id context) (task_id context).

(** Lines 54-57: the payload as the one text part of the agent's input. *)
Definition adk_content_of (agent_input_data : dict) : genai_types.Content :=
  let agent_input_json := json_dumps agent_input_data in
  {| genai_types.parts :=
       [ {| genai_types.text := Some agent_input_json;
            genai_types.function_response := None |} ] |}.

(** Lines 113-117: the error of a session that could not be had. *)
Definition no_session (session_id_for_adk : option string) : exn :=
  ConnectionError
    ("Failed to establish ADK session. session_id was '"
       ++ fmt session_id_for_adk ++ "'.").

(** Lines 36-147: the body of the [try]. *)
Definition execute_try (context : RequestContext) : M σ unit :=
  (if negb (truthy (context_id context))
   then raise missing_context_id
   else ret tt) ;;
  agent_input_data <- check_payload (agent_input_data_of context) ;;
  let adk_content := adk_content_of agent_input_data in
  let session_id_for_adk := context_id context in
  session <- ensure_session session_id_for_adk ;;
  (if negb (truthy session)
   then raise (no_session session_id_for_adk)
   else ret tt) ;;
  events <- run_async (_adk_runner self) "a2a_user" (context_id context)
              adk_content ;;
  risk_result_dict <- consume events default_result ;;
  let final_message :=
    a2a.new_agent_parts_message
      [ {| a2a.root := a2a.DataPart risk_result_dict |} ]
      (context_id context) (task_id context) in
  emit (enqueue_event_call final_message).


(** [execute], lines 31-169. *)
Definition execute (context : RequestContext) : M σ unit :=
  try_finally
    (try_except
       (execute_try context)
       (fun e => emit (enqueue_event_call (error_message context e))))
    (emit close_call).

(** [cancel], lines 171-174. *)
Definition cancel (context : RequestContext) : M σ unit :=
  emit close_call.

(** A request that passes lines 36-52. *)
Definition valid_request (context : RequestContext) : bool :=
  truthy (context_id context)
  && match agent_input_data_of context with
     | Some data =>
         truthy data && dict_contains "trade_proposal" data
         && dict_contains "portfolio_state" data
     | None => false
     end.

End Executor.

(** ** An in-memory session service *)

(** Modelled from the spec: the Session Store, a keyed mapping from the
    session identity [(app, user, id)] to the session; [get] looks the
    session up, [create] stores a session with the given initial state.
    The ADK class [InMemorySessionService] itself is not part of the
    repository's sources. *)
Definition InMemorySessionService
  : SessionService (gmap (string * string * string) Session) :=
  {| get_session := fun app_name user_id session_id sessions =>
       (Ok (sessions !! (app_name, user_id, session_id)), sessions);
     create_session := fun app_name user_id session_id state sessions =>
       let session :=
         {| id := session_id; session_app_name := app_name;
            session_user_id := user_id; state := state |} in
       (Ok (Some session),
        <[(app_name, user_id, session_id) := session]> sessions) |}.

(** A session service that is down: both operations raise. *)
Definition failing_session_service : SessionService unit :=
  {| get_session := fun _ _ _ s =>
       (Raised (OtherException "RuntimeError" "store unavailable"), s);
     create_session := fun _ _ _ _ s =>
       (Raised (OtherException "RuntimeError" "store unavailable"), s) |}.

(** ** Sample data *)

Definition sample_payload : dict :=
  [("trade_proposal", VDict [("symbol", VStr "ACME"); ("quantity", VInt 10)]);
   ("portfolio_state", VDict [("cash", VInt 1000)])].

Definition data_message (data : dict) : a2a.Message :=
  {| a2a.role := a2a.user;
     a2a.parts := [ {| a2a.root := a2a.DataPart data |} ];
     a2a.context_id := None; a2a.task_id := None |}.

Definition sample_request : RequestContext :=
  {| context_id := Some "s1"; task_id := Some "t1";
     message := Some (data_message sample_payload) |}.

Definition result_event (name : string) (response : value) : Event :=
  {| content := Some
       {| genai_types.parts :=
            [ {| genai_types.text := None;
                 genai_types.function_response :=
                   Some {| genai_types.name := Some name;
                           genai_types.response := response |} |} ] |} |}.

Definition text_event (t : string) : Event :=
  {| content := Some
       {| genai_types.parts :=
            [ {| genai_types.text := Some t;
                 genai_types.function_response := None |} ] |} |}.

Definition ok_verdict : dict :=
  [("approved", VBool true); ("reason", VStr "ok")].

(** An agent that thinks aloud once and then reports [ok_verdict]. *)
Definition sample_agent {σ} : Agent σ :=
  fun _ _ _ _ _ =>
    Yields (text_event "checking")
      (Yields (result_event "risk_check_result" (VDict ok_verdict))
         StopAsyncIteration).

(** [json.dumps] stand-in for the samples. *)
Definition sample_dumps (d : dict) : string := "{}".

(** ** Vocabulary of the statements *)

(** The generator [run_async] hands to the loop of [execute] for this
    request, once the session is resolved from the store [s]. *)
Definition events_of {σ} (json_dumps : dict -> string)
    (self : RiskGuardAgentExecutor σ) (context : RequestContext) (s : σ)
  : AsyncGenerator :=
  match agent_input_data_of context with
  | Some data =>
      let runner := _adk_runner self in
      agent runner (app_name runner) "a2a_user" (context_id context)
        (adk_content_of json_dumps data)
        (store (ensure_session self (context_id context) s))
  | None => StopAsyncIteration
  end.

(** The session lines 65-110 end with, from the store [s]. *)
Definition session_of {σ} (self : RiskGuardAgentExecutor σ)
    (context : RequestContext) (s : σ) : option Session :=
  match outcome (ensure_session self (context_id context) s) with
  | Ok session => session
  | Raised _ => None
  end.

(** A generator that yields [events] and goes on as [rest]. *)
Fixpoint yields_all (events : list Event) (rest : AsyncGenerator)
  : AsyncGenerator :=
  match events with
  | [] => rest
  | ev :: events' => Yields ev (yields_all events' rest)
  end.

(** The answer of a session service call found nothing usable: it raised
    or returned [None]. *)
Definition nothing {σ} (r : result (option Session) * σ) : bool :=
  match fst r with
  | Ok (Some _) => false
  | Ok None | Raised _ => true
  end.

(** What the session service answers to the [get_session] of line 68 on
    the store [s], and to the [create_session] of line 84 after it. *)
Definition get_answer {σ} (self : RiskGuardAgentExecutor σ) (sid : string)
    (s : σ) : result (option Session) * σ :=
  let runner := _adk_runner self in
  get_session (session_service runner) (app_name runner) "a2a_user" sid s.

Definition create_answer {σ} (self : RiskGuardAgentExecutor σ) (sid : string)
    (s : σ) : result (option Session) * σ :=
  let runner := _adk_runner self in
  create_session (session_service runner) (app_name runner) "a2a_user" sid []
    (snd (get_answer self sid s)).

(** The message of line 142 for the verdict [risk_result_dict]. *)
Definition final_message (context : RequestContext) (risk_result_dict : dict)
  : a2a.Message :=
  a2a.new_agent_parts_message
    [ {| a2a.root := a2a.DataPart risk_result_dict |} ]
    (context_id context) (task_id context).

(** The verdict of a refusal with the given reason. *)
Definition refusal (reason : string) : dict :=
  [("approved", VBool false); ("reason", VStr reason)].

(** The error the validation of lines 36-52 raises on an invalid request. *)
Definition validation_error (context : RequestContext) : exn :=
  if truthy (context_id context) then missing_payload else missing_context_id.

(** An event whose content has the given parts. *)
Definition event_with (parts : list genai_types.Part) : Event :=
  {| content := Some {| genai_types.parts := parts |} |}.

(** Traces made of session-service calls only, of pulled events only. *)
Definition session_calls_only (t : list call) : Prop :=
  Forall (fun c => is_session_call c = true) t.

Definition anext_calls_only (t : list call) : Prop :=
  Forall (fun c => exists ev, c = anext_call ev) t.

(** Requests for the examples below. *)
Definition no_id_request : RequestContext :=
  {| context_id := None; task_id := Some "t1";
     message := Some (data_message sample_payload) |}.

Definition no_portfolio_request : RequestContext :=
  {| context_id := Some "s1"; task_id := Some "t1";
     message := Some (data_message
                        [("trade_proposal", VDict [("symbol", VStr "ACME")])]) |}.

Definition text_first_request : RequestContext :=
  {| context_id := Some "s1"; task_id := Some "t1";
     message := Some
       {| a2a.role := a2a.user;
          a2a.parts := [ {| a2a.root := a2a.TextPart "please check" |};
                         {| a2a.root := a2a.DataPart sample_payload |} ];
          a2a.context_id := None; a2a.task_id := None |} |}.

Definition sample_executor
  : RiskGuardAgentExecutor (gmap (string * string * string) Session) :=
  __init__ sample_agent InMemorySessionService.

(** An agent whose events never carry the result. *)
Definition silent_agent {σ} : Agent σ :=
  fun _ _ _ _ _ =>
    Yields (text_event "checking")
      (Yields (result_event "other_tool" (VDict ok_verdict))
         (Yields (result_event "risk_check_result" (VStr "approved"))
            StopAsyncIteration)).

Definition silent_executor
  : RiskGuardAgentExecutor (gmap (string * string * string) Session) :=
  __init__ silent_agent InMemorySessionService.

(** A part with the result, and an event that has it second. *)
Definition result_part (response : value) : genai_types.Part :=
  {| genai_types.text := None;
     genai_types.function_response :=
       Some {| genai_types.name := Some "risk_check_result";
               genai_types.response := response |} |}.

Definition text_part (t : string) : genai_types.Part :=
  {| genai_types.text := Some t; genai_types.function_response := None |}.

(** An executor whose session service is down. *)
Definition stranded_executor : RiskGuardAgentExecutor unit :=
  __init__ sample_agent failing_session_service.

(** The session [create_session] of the in-memory service makes for the
    executor of [__init__]. *)
Definition created_session (cid : string) : Session :=
  {| id := cid; session_app_name := "riskguard_adk_runner";
     session_user_id := "a2a_user"; state := [] |}.

Definition session_key (cid : string) : string * string * string :=
  ("riskguard_adk_runner", "a2a_user", cid).

(** The in-memory store that holds that session and no other. *)
Definition store_with (cid : string) : gmap (string * string * string) Session :=
  <[session_key cid := created_session cid]> ∅.

(** ** Vocabulary of the further properties *)

(** The keys of a dict. *)
Definition keys (d : dict) : list string := map fst d.

(** The events a generator yields before it ends or raises. *)
Fixpoint events_in (g : AsyncGenerator) : list Event :=
  match g with
  | StopAsyncIteration | Raises _ => []
  | Yields ev rest => ev :: events_in rest
  end.

Definition is_run_async (c : call) : bool :=
  match c with run_async_call _ _ _ => true | _ => false end.

(** The calls on the session service the executor can make for the
    session id [sid]. *)
Definition get_call {σ} (self : RiskGuardAgentExecutor σ) (sid : string)
  : call :=
  get_session_call (app_name (_adk_runner self)) "a2a_user" sid.

Definition create_call {σ} (self : RiskGuardAgentExecutor σ) (sid : string)
  : call :=
  create_session_call (app_name (_adk_runner self)) "a2a_user" sid [].

(** What [create_session] brought, an exception of it counting as
    nothing (lines 98-102). *)
Definition created {σ} (r : result (option Session) * σ) : option Session :=
  match fst r with
  | Ok session => session
  | Raised _ => None
  end.


(** A request without a message, and one whose message has no parts. *)
Definition no_message_request : RequestContext :=
  {| context_id := Some "s1"; task_id := Some "t1"; message := None |}.

Definition no_parts_request : RequestContext :=
  {| context_id := Some "s1"; task_id := Some "t1";
     message := Some {| a2a.role := a2a.user; a2a.parts := [];
                        a2a.context_id := None; a2a.task_id := None |} |}.

(** An agent that raises after its first event. *)
Definition crashing_agent {σ} : Agent σ :=
  fun _ _ _ _ _ =>
    Yields (text_event "checking")
      (Raises (OtherException "RuntimeError" "model unavailable")).

Definition crashing_executor
  : RiskGuardAgentExecutor (gmap (string * string * string) Session) :=
  __init__ crashing_agent InMemorySessionService.

(** A session service whose [get_session] raises and whose
    [create_session] works. *)
Definition flaky_session_service : SessionService unit :=
  {| get_session := fun _ _ _ s =>
       (Raised (OtherException "RuntimeError" "lookup failed"), s);
     create_session := fun app_name user_id session_id state s =>
       (Ok (Some {| id := session_id; session_app_name := app_name;
                    session_user_id := user_id; state := state |}), s) |}.

Definition flaky_executor : RiskGuardAgentExecutor unit :=
  __init__ sample_agent flaky_session_service.

(** A second request of the session "s1". *)
Definition second_request : RequestContext :=
  {| context_id := Some "s1"; task_id := Some "t2";
     message := Some (data_message sample_payload) |}.


(** ** The executor in any environment

    The embedding above fixes three things about the environment of
    [execute]: the event queue takes every call, [json.dumps] serialises
    every payload, and what the collaborators raise are instances of
    [Exception].  The module [General] embeds the same lines of the source
    without the three: [enqueue_event] and [close] are operations of the
    environment that may raise, [json.dumps] may raise, and a call may
    raise a [BaseException] that is no [Exception]
    ([asyncio.CancelledError], [KeyboardInterrupt]), which the three
    [except Exception] clauses of the source let through. *)

Module General.

(** What a call raises: an instance of [Exception], or of another class
    of [BaseException]. *)
Inductive raised : Type :=
| exception (e : exn)
| base_exception (cls msg : string).

Inductive result (A : Type) : Type :=
| Ok (a : A)
| Raised (r : raised).
Arguments Ok {A} a.
Arguments Raised {A} r.

(** The async generator of [run_async]: it yields, ends, or raises. *)
Inductive AsyncGenerator : Type :=
| StopAsyncIteration
| Raises (r : raised)
| Yields (ev : Event) (rest : AsyncGenerator).

(** A computation on the state [ω] of the environment (the sessions, the
    queue): it returns or raises, and reports its calls. *)
Definition M (ω A : Type) : Type := ω -> result A * ω * list call.

Definition ret {ω A} (a : A) : M ω A := fun s => (Ok a, s, []).

Definition raise {ω A} (r : raised) : M ω A := fun s => (Raised r, s, []).

Definition bind {ω A B} (m : M ω A) (k : A -> M ω B) : M ω B :=
  fun s =>
    match m s with
    | (Ok a, s1, t1) =>
        match k a s1 with (r, s2, t2) => (r, s2, t1 ++ t2) end
    | (Raised e, s1, t1) => (Raised e, s1, t1)
    end.

(** [try: body  except Exception as e: handler e]: an instance of
    [Exception] goes to the handler, any other [BaseException] goes on. *)
Definition try_except {ω A} (body : M ω A) (handler : exn -> M ω A)
  : M ω A :=
  fun s =>
    match body s with
    | (Raised (exception e), s1, t1) =>
        match handler e s1 with (r, s2, t2) => (r, s2, t1 ++ t2) end
    | (r, s1, t1) => (r, s1, t1)
    end.

(** [try: body  finally: final] *)
Definition try_finally {ω A} (body : M ω A) (final : M ω unit) : M ω A :=
  fun s =>
    match body s with
    | (r, s1, t1) =>
        match final s1 with
        | (Ok _, s2, t2) => (r, s2, t1 ++ t2)
        | (Raised e, s2, t2) => (Raised e, s2, t1 ++ t2)
        end
    end.

(** A call on a collaborator: recorded, then run on the environment. *)
Definition invoke {ω A} (c : call) (op : ω -> result A * ω) : M ω A :=
  fun s => match op s with (r, s1) => (r, s1, [c]) end.

(** A function of the standard library that may raise. *)
Definition lift {ω A} (r : result A) : M ω A := fun s => (r, s, []).

Definition outcome {ω A} (r : result A * ω * list call) : result A :=
  fst (fst r).
Definition store {ω A} (r : result A * ω * list call) : ω := snd (fst r).
Definition trace {ω A} (r : result A * ω * list call) : list call := snd r.

#[local] Notation "x <- m ;; k" := (bind m (fun x => k))
  (at level 100, m at next level, right associativity).
#[local] Notation "m ;; k" := (bind m (fun _ => k))
  (at level 100, right associativity).

Record SessionService (ω : Type) : Type := {
  get_session : string -> string -> string -> ω -> result (option Session) * ω;
  create_session :
    string -> string -> string -> dict -> ω -> result (option Session) * ω
}.
Arguments get_session {ω} _ _ _ _ _.
Arguments create_session {ω} _ _ _ _ _ _.

Definition Agent (ω : Type) : Type :=
  string -> string -> option string -> genai_types.Content -> ω ->
  AsyncGenerator.

Record Runner (ω : Type) : Type := {
  app_name : string;
  agent : Agent ω;
  session_service : SessionService ω
}.
Arguments app_name {ω} _.
Arguments agent {ω} _.
Arguments session_service {ω} _.

(** The A2A event queue handed to [execute]. *)
Record EventQueue (ω : Type) : Type := {
  enqueue_event : a2a.Message -> ω -> result unit * ω;
  close : ω -> result unit * ω
}.
Arguments enqueue_event {ω} _ _ _.
Arguments close {ω} _ _.

Definition run_async {ω} (runner : Runner ω) (user_id : string)
    (session_id : option string) (new_message : genai_types.Content)
  : M ω AsyncGenerator :=
  fun s =>
    (Ok (agent runner (app_name runner) user_id session_id new_message s),
     s, [run_async_call user_id session_id new_message]).

Record RiskGuardAgentExecutor (ω : Type) : Type := {
  _adk_agent : Agent ω;
  _adk_runner : Runner ω
}.
Arguments _adk_agent {ω} _.
Arguments _adk_runner {ω} _.

(** [__init__], lines 21-29. *)
Definition __init__ {ω} (riskguard_adk_agent : Agent ω)
    (InMemorySessionService : SessionService ω) : RiskGuardAgentExecutor ω :=
  {| _adk_agent := riskguard_adk_agent;
     _adk_runner :=
       {| app_name := "riskguard_adk_runner";
          agent := riskguard_adk_agent;
          session_service := InMemorySessionService |} |}.

(** Lines 45-52. *)
Definition check_payload {ω} (agent_input_data : option dict) : M ω dict :=
  match agent_input_data with
  | Some data =>
      if negb (truthy agent_input_data)
         || negb (dict_contains "trade_proposal" data)
         || negb (dict_contains "portfolio_state" data)
      then raise (exception missing_payload)
      else ret data
  | None => raise (exception missing_payload)
  end.

(** Lines 65-110. *)
Definition ensure_session {ω} (self : RiskGuardAgentExecutor ω)
    (session_id_for_adk : option string) : M ω (option Session) :=
  let runner := _adk_runner self in
  match session_id_for_adk with
  | Some sid =>
      if truthy session_id_for_adk then
        session <- try_except
                     (invoke (get_session_call (app_name runner) "a2a_user" sid)
                        (get_session (session_service runner)
                           (app_name runner) "a2a_user" sid))
                     (fun e_get => ret None) ;;
        if negb (truthy session) then
          try_except
            (invoke (create_session_call (app_name runner) "a2a_user" sid [])
               (create_session (session_service runner)
                  (app_name runner) "a2a_user" sid []))
            (fun e_create => ret None)
        else ret session
      else ret None
  | None => ret None
  end.

(** Lines 124-139. *)
Fixpoint consume {ω} (events : AsyncGenerator) (risk_result_dict : dict)
  : M ω dict :=
  match events with
  | StopAsyncIteration => ret risk_result_dict
  | Raises r => raise r
  | Yields event rest =>
      invoke (anext_call event) (fun s => (Ok tt, s)) ;;
      match risk_check_result_of event with
      | Some response_data => ret response_data
      | None => consume rest risk_result_dict
      end
  end.

(** Lines 55-57, from the text [json.dumps] returned. *)
Definition adk_content (agent_input_json : string) : genai_types.Content :=
  {| genai_types.parts :=
       [ {| genai_types.text := Some agent_input_json;
            genai_types.function_response := None |} ] |}.

(** Lines 36-147: the body of the [try]. *)
Definition execute_try {ω} (json_dumps : dict -> result string)
    (self : RiskGuardAgentExecutor ω) (context : RequestContext)
    (event_queue : EventQueue ω) : M ω unit :=
  (if negb (truthy (context_id context))
   then raise (exception missing_context_id)
   else ret tt) ;;
  agent_input_data <- check_payload (agent_input_data_of context) ;;
  agent_input_json <- lift (json_dumps agent_input_data) ;;
  let adk_content := adk_content agent_input_json in
  let session_id_for_adk := context_id context in
  session <- ensure_session self session_id_for_adk ;;
  (if negb (truthy session)
   then raise (exception (no_session session_id_for_adk))
   else ret tt) ;;
  events <- run_async (_adk_runner self) "a2a_user" (context_id context)
              adk_content ;;
  risk_result_dict <- consume events default_result ;;
  let final_message :=
    a2a.new_agent_parts_message
      [ {| a2a.root := a2a.DataPart risk_result_dict |} ]
      (context_id context) (task_id context) in
  invoke (enqueue_event_call final_message)
    (enqueue_event event_queue final_message).

(** [execute], lines 31-169. *)
Definition execute {ω} (json_dumps : dict -> result string)
    (self : RiskGuardAgentExecutor ω) (context : RequestContext)
    (event_queue : EventQueue ω) : M ω unit :=
  try_finally
    (try_except
       (execute_try json_dumps self context event_queue)
       (fun e =>
          invoke (enqueue_event_call (error_message context e))
            (enqueue_event event_queue (error_message context e))))
    (invoke close_call (close event_queue)).

(** [cancel], lines 171-174. *)
Definition cancel {ω} (context : RequestContext)
    (event_queue : EventQueue ω) : M ω unit :=
  invoke close_call (close event_queue).

(** A queue that takes every call. *)
Definition reliable_queue {ω} : EventQueue ω :=
  {| enqueue_event := fun _ s => (Ok tt, s);
     close := fun s => (Ok tt, s) |}.

(** The answer is no [BaseException] outside [Exception]. *)
Definition no_base_exception {A} (r : result A) : Prop :=
  match r with
  | Raised (base_exception _ _) => False
  | _ => True
  end.

(** The generator raises no [BaseException] outside [Exception]. *)
Fixpoint raises_exceptions_only (g : AsyncGenerator) : Prop :=
  match g with
  | StopAsyncIteration => True
  | Raises r => no_base_exception (Raised (A := unit) r)
  | Yields _ rest => raises_exceptions_only rest
  end.

End General.

(** The environment of the reliable embedding, as one of [General]. *)
Definition general_result {A} (r : result A) : General.result A :=
  match r with
  | Ok a => General.Ok a
  | Raised e => General.Raised (General.exception e)
  end.

Fixpoint general_generator (g : AsyncGenerator) : General.AsyncGenerator :=
  match g with
  | StopAsyncIteration => General.StopAsyncIteration
  | Raises e => General.Raises (General.exception e)
  | Yields ev rest => General.Yields ev (general_generator rest)
  end.

Definition general_service {σ} (service : SessionService σ)
  : General.SessionService σ :=
  {| General.get_session := fun app_name user_id session_id s =>
       let r := get_session service app_name user_id session_id s in
       (general_result (fst r), snd r);
     General.create_session := fun app_name user_id session_id state s =>
       let r := create_session service app_name user_id session_id state s in
       (general_result (fst r), snd r) |}.

Definition general_agent {σ} (a : Agent σ) : General.Agent σ :=
  fun app_name user_id session_id new_message s =>
    general_generator (a app_name user_id session_id new_message s).

Definition general_executor {σ} (self : RiskGuardAgentExecutor σ)
  : General.RiskGuardAgentExecutor σ :=
  {| General._adk_agent := general_agent (_adk_agent self);
     General._adk_runner :=
       {| General.app_name := app_name (_adk_runner self);
          General.agent := general_agent (agent (_adk_runner self));
          General.session_service :=
            general_service (session_service (_adk_runner self)) |} |}.

Definition general_run {σ A} (r : result A * σ * list call)
  : General.result A * σ * list call :=
  (general_result (outcome r), store r, trace r).

(** ** Samples of other environments *)

(** A queue whose [enqueue_event] raises and whose [close] returns. *)
Definition refusing_queue {ω} : General.EventQueue ω :=
  {| General.enqueue_event := fun _ s =>
       (General.Raised
          (General.exception (OtherException "RuntimeError" "queue unavailable")),
        s);
     General.close := fun s => (General.Ok tt, s) |}.

(** An agent whose stream is cancelled after its first event. *)
Definition cancelled_agent {ω} : General.Agent ω :=
  fun _ _ _ _ _ =>
    General.Yields (text_event "checking")
      (General.Raises (General.base_exception "CancelledError" "")).

(** [json.dumps] that finds something it cannot serialise. *)
Definition failing_dumps (d : dict) : General.result string :=
  General.Raised
    (General.exception
       (OtherException "TypeError"
          "Object of type bytes is not JSON serializable")).

Definition total_dumps (json_dumps : dict -> string) (d : dict)
  : General.result string :=
  General.Ok (json_dumps d).

(** The collaborators raise instances of [Exception] only. *)
Definition raises_only_exceptions {ω} (json_dumps : dict -> General.result string)
    (self : General.RiskGuardAgentExecutor ω) : Prop :=
  let runner := General._adk_runner self in
  (forall d, General.no_base_exception (json_dumps d))
  /\ (forall a u i s,
        General.no_base_exception
          (fst (General.get_session (General.session_service runner) a u i s)))
  /\ (forall a u i st s,
        General.no_base_exception
          (fst (General.create_session (General.session_service runner)
                  a u i st s)))
  /\ (forall a u i m s,
        General.raises_exceptions_only (General.agent runner a u i m s)).

(** [json.dumps], and the session service, raise instances of
    [Exception] only. *)
Definition dumps_raises_only_exceptions
    (json_dumps : dict -> General.result string) : Prop :=
  forall d, General.no_base_exception (json_dumps d).

Definition service_raises_only_exceptions {ω}
    (self : General.RiskGuardAgentExecutor ω) : Prop :=
  let runner := General._adk_runner self in
  (forall a u i s,
      General.no_base_exception
        (fst (General.get_session (General.session_service runner) a u i s)))
  /\ (forall a u i st s,
        General.no_base_exception
          (fst (General.create_session (General.session_service runner)
                  a u i st s))).

(** The queue takes every [enqueue_event] and every [close]. *)
Definition accepts {ω} (event_queue : General.EventQueue ω) : Prop :=
  (forall m s, fst (General.enqueue_event event_queue m s) = General.Ok tt)
  /\ (forall s, fst (General.close event_queue s) = General.Ok tt).

(** The text [json.dumps] makes of the payload of the request, if any. *)
Definition serialised (json_dumps : dict -> General.result string)
    (context : RequestContext) : option string :=
  match agent_input_data_of context with
  | Some data =>
      match json_dumps data with
      | General.Ok agent_input_json => Some agent_input_json
      | General.Raised _ => None
      end
  | None => None
  end.

(** An agent message with one data part and the ids of the request. *)
Definition answers (context : RequestContext) (reply : a2a.Message) : Prop :=
  a2a.role reply = a2a.agent
  /\ (exists d, a2a.parts reply = [ {| a2a.root := a2a.DataPart d |} ])
  /\ a2a.context_id reply = context_id context
  /\ a2a.task_id reply = task_id context.

(** How a generator ends: [None] when it stops, the exception when it
    raises. *)
Fixpoint ending (g : AsyncGenerator) : option exn :=
  match g with
  | StopAsyncIteration => None
  | Raises e => Some e
  | Yields _ rest => ending rest
  end.

(** The result an event carries in any of its parts, as the
    specification words the match: the response of the first part, in
    order, that has a ['risk_check_result'] function response with a dict
    response. *)
Fixpoint carried_by_parts (parts : list genai_types.Part) : option dict :=
  match parts with
  | [] => None
  | part :: parts' =>
      match part_result part with
      | Some d => Some d
      | None => carried_by_parts parts'
      end
  end.

Definition carried_result (event : Event) : option dict :=
  match content event with
  | Some c => carried_by_parts (genai_types.parts c)
  | None => None
  end.

Definition early_verdict : dict :=
  [("approved", VBool false); ("reason", VStr "early")].

Definition late_verdict : dict :=
  [("approved", VBool true); ("reason", VStr "late")].

(** An event that carries [early_verdict] in its second part, and one
    that carries [late_verdict] in its first. *)
Definition second_part_event : Event :=
  event_with [text_part "note"; result_part (VDict early_verdict)].

Definition first_part_event : Event :=
  event_with [result_part (VDict late_verdict)].

Definition two_results_agent {σ} : Agent σ :=
  fun _ _ _ _ _ =>
    Yields second_part_event (Yields first_part_event StopAsyncIteration).

Definition two_results_executor
  : RiskGuardAgentExecutor (gmap (string * string * string) Session) :=
  __init__ two_results_agent InMemorySessionService.

(** ** Traces *)

Lemma enqueued_app (t1 t2 : list call) :
  enqueued (t1 ++ t2) = enqueued t1 ++ enqueued t2.
Proof.
  induction t1 as [|c t1 IH]; simpl; [reflexivity|].
  destruct c; simpl; rewrite ?IH; reflexivity.
Qed.

Lemma consumed_app (t1 t2 : list call) :
  consumed (t1 ++ t2) = consumed t1 ++ consumed t2.
Proof.
  induction t1 as [|c t1 IH]; simpl; [reflexivity|].
  destruct c; simpl; rewrite ?IH; reflexivity.
Qed.

Lemma count_app (p : call -> bool) (t1 t2 : list call) :
  count p (t1 ++ t2) = count p t1 + count p t2.
Proof.
  unfold count. rewrite List.filter_app, List.length_app. reflexivity.
Qed.

(** Both sides are traces built with [++] and [::] from the same calls. *)
Ltac same_trace :=
  repeat (cbn [app]; rewrite <- ?app_assoc, ?app_nil_r);
  cbn [app]; reflexivity.

Lemma session_calls_queue_free (t : list call) :
  session_calls_only t -> enqueued t = [] /\ count is_close t = 0.
Proof.
  induction 1 as [|c t Hc _ [IH1 IH2]]; [split; reflexivity|].
  destruct c; try discriminate Hc; split; assumption.
Qed.

Lemma anext_calls_queue_free (t : list call) :
  anext_calls_only t -> enqueued t = [] /\ count is_close t = 0.
Proof.
  induction 1 as [|c t [ev ->] _ [IH1 IH2]]; [split; reflexivity|].
  split; assumption.
Qed.

Lemma anext_calls_count (p : call -> bool) (t : list call) :
  (forall ev, p (anext_call ev) = false) ->
  anext_calls_only t -> count p t = 0.
Proof.
  intros Hp. induction 1 as [|c t [ev ->] _ IH]; [reflexivity|].
  unfold count in *. cbn [List.filter]. rewrite Hp. assumption.
Qed.

Lemma session_calls_not_consumed (t : list call) :
  session_calls_only t -> consumed t = [].
Proof.
  induction 1 as [|c t Hc _ IH]; [reflexivity|].
  destruct c; try discriminate Hc; assumption.
Qed.

Lemma consumed_anext (events : list Event) :
  consumed (map anext_call events) = events.
Proof.
  induction events as [|ev events IH]; simpl; [|rewrite IH]; reflexivity.
Qed.

Lemma anext_only_map (events : list Event) :
  anext_calls_only (map anext_call events).
Proof.
  induction events as [|ev events IH]; constructor; [eexists; reflexivity|].
  assumption.
Qed.

(** ** The steps of [execute] *)

Section Steps.
Context {σ : Type}.
Variable json_dumps : dict -> string.
Variable self : RiskGuardAgentExecutor σ.

(** Session resolution never raises; it only talks to the session
    service. *)
Lemma ensure_session_returns (sid : option string) (s : σ) :
  exists session s1 t,
    ensure_session self sid s = (Ok session, s1, t) /\ session_calls_only t.
Proof.
  unfold ensure_session, session_calls_only.
  destruct sid as [sid|]; [|do 3 eexists; split; [reflexivity|constructor]].
  destruct (truthy (Some sid));
    [|do 3 eexists; split; [reflexivity|constructor]].
  unfold bind, try_except, invoke, ret.
  destruct (get_session _ _ _ _ s) as [[[session|]|e_get] s1]; cbn.
  - do 3 eexists; split; [reflexivity|]. repeat constructor.
  - destruct (create_session _ _ _ _ _ s1) as [[created|e_create] s2];
      do 3 eexists; (split; [reflexivity|]); repeat constructor.
  - destruct (create_session _ _ _ _ _ s1) as [[created|e_create] s2];
      do 3 eexists; (split; [reflexivity|]); repeat constructor.
Qed.

(** The loop leaves the store alone and only pulls events. *)
Lemma consume_pulls (events : AsyncGenerator) (acc : dict) (s : σ) :
  exists r t, consume events acc s = (r, s, t) /\ anext_calls_only t.
Proof.
  unfold anext_calls_only.
  induction events as [|e|ev rest IH]; simpl.
  - do 2 eexists; split; [reflexivity|constructor].
  - do 2 eexists; split; [reflexivity|constructor].
  - unfold bind, emit. destruct (risk_check_result_of ev) as [d|].
    + do 2 eexists; split; [reflexivity|]. repeat econstructor.
    + destruct IH as (r & t & -> & Ht).
      do 2 eexists; split; [reflexivity|].
      constructor; [eexists; reflexivity|assumption].
Qed.

(** An invalid request: the [try] raises at once, the [except] branch
    answers, the [finally] closes. *)
Lemma execute_invalid (context : RequestContext) (s : σ) :
  valid_request context = false ->
  execute json_dumps self context s
  = (Ok tt, s,
     [enqueue_event_call (error_message context (validation_error context));
      close_call]).
Proof.
  unfold valid_request, validation_error, execute, try_finally, try_except.
  unfold execute_try, check_payload, bind, ret, raise, emit.
  destruct (truthy (context_id context)); cbn [negb andb]; [|reflexivity].
  destruct (agent_input_data_of context) as [data|]; [|reflexivity].
  intros Hv. cbn [truthy truthy_option].
  replace (negb (truthy data) || negb (dict_contains "trade_proposal" data)
           || negb (dict_contains "portfolio_state" data)) with true;
    [reflexivity|].
  destruct (truthy data), (dict_contains "trade_proposal" data),
    (dict_contains "portfolio_state" data); try reflexivity; discriminate Hv.
Qed.

Lemma valid_request_data (context : RequestContext) :
  valid_request context = true ->
  exists data,
    agent_input_data_of context = Some data
    /\ truthy (context_id context) = true
    /\ negb (truthy (Some data)) || negb (dict_contains "trade_proposal" data)
       || negb (dict_contains "portfolio_state" data) = false.
Proof.
  unfold valid_request.
  destruct (truthy (context_id context)); [|discriminate].
  destruct (agent_input_data_of context) as [data|]; [|discriminate].
  cbn [andb truthy truthy_option]. intros Hv. exists data.
  destruct (truthy data), (dict_contains "trade_proposal" data),
    (dict_contains "portfolio_state" data); try discriminate Hv.
  repeat split.
Qed.

(** A valid request whose session could not be had. *)
Lemma execute_valid_no_session (context : RequestContext) (s s1 : σ)
    (t1 : list call) :
  valid_request context = true ->
  ensure_session self (context_id context) s = (Ok None, s1, t1) ->
  execute json_dumps self context s
  = (Ok tt, s1,
     t1 ++ [enqueue_event_call
              (error_message context (no_session (context_id context)));
            close_call]).
Proof.
  intros (data & Hd & Hid & Hok)%valid_request_data Hs.
  unfold execute, try_finally, try_except.
  unfold execute_try, check_payload, bind, ret, raise, emit. cbv zeta.
  rewrite Hid, Hd, Hok. cbn [negb]. rewrite Hs. cbn.
  f_equal. same_trace.
Qed.

(** A valid request with its session: the agent runs, the loop scans its
    events, and the verdict or the error of the loop is the answer. *)
Lemma execute_valid_session (context : RequestContext) (s s1 : σ)
    (t1 t2 : list call) (session : Session) (r : result dict) :
  valid_request context = true ->
  ensure_session self (context_id context) s = (Ok (Some session), s1, t1) ->
  consume (events_of json_dumps self context s) default_result s1
  = (r, s1, t2) ->
  exists content,
    execute json_dumps self context s
    = (Ok tt, s1,
       t1 ++ [run_async_call "a2a_user" (context_id context) content] ++ t2
          ++ [enqueue_event_call
                match r with
                | Ok risk_result_dict => final_message context risk_result_dict
                | Raised e => error_message context e
                end;
              close_call]).
Proof.
  intros (data & Hd & Hid & Hok)%valid_request_data Hs.
  unfold events_of. rewrite Hd, Hs. cbn [store fst snd]. intros Hc.
  exists (adk_content_of json_dumps data).
  unfold execute, try_finally, try_except.
  unfold execute_try, check_payload, run_async, bind, ret, raise, emit.
  cbv zeta.
  rewrite Hid, Hd, Hok. cbn [negb]. rewrite Hs.
  cbn [negb truthy truthy_option truthy_session]. rewrite Hc.
  destruct r as [d|e]; cbn; unfold final_message; f_equal; same_trace.
Qed.

(** The loop on a generator whose first result comes after [pre]: it
    pulls [pre] and the event with the result, and nothing of [rest]. *)
Lemma consume_first_result (pre : list Event) (ev : Event) (d acc : dict)
    (rest : AsyncGenerator) (s : σ) :
  Forall (fun e => risk_check_result_of e = None) pre ->
  risk_check_result_of ev = Some d ->
  consume (σ := σ) (yields_all pre (Yields ev rest)) acc s
  = (Ok d, s, map anext_call (pre ++ [ev])).
Proof.
  intros Hpre Hev.
  induction Hpre as [|e pre He _ IH]; cbn [yields_all consume].
  - unfold bind, emit, ret. rewrite Hev. reflexivity.
  - unfold bind, emit. rewrite He, IH. reflexivity.
Qed.

(** The loop on a generator that ends without a result. *)
Lemma consume_no_result (events : list Event) (acc : dict) (s : σ) :
  Forall (fun e => risk_check_result_of e = None) events ->
  consume (σ := σ) (yields_all events StopAsyncIteration) acc s
  = (Ok acc, s, map anext_call events).
Proof.
  induction 1 as [|e events He _ IH]; cbn [yields_all consume].
  - reflexivity.
  - unfold bind, emit. rewrite He, IH. reflexivity.
Qed.

Lemma session_of_Some (context : RequestContext) (s : σ) (session : Session) :
  session_of self context s = Some session ->
  exists s1 t1,
    ensure_session self (context_id context) s = (Ok (Some session), s1, t1)
    /\ session_calls_only t1.
Proof.
  unfold session_of, outcome.
  destruct (ensure_session_returns (context_id context) s)
    as (o & s1 & t1 & Heq & Ht).
  rewrite Heq. cbn. intros ->. eauto.
Qed.

End Steps.

(** ** Properties of [execute] *)

(** C2. A request whose context id is [None] or empty gets the refusal
    "An internal error occurred: Context ID is missing, cannot execute."
    and [execute] makes two calls only, the [enqueue_event] of that message
    and the [close]: neither the session service nor the runner is
    called. *)
Theorem execute_missing_context_id {σ : Type} (json_dumps : dict -> string)
    (self : RiskGuardAgentExecutor σ) (context : RequestContext) (s : σ) :
  truthy (context_id context) = false ->
  exists m,
    execute json_dumps self context s
    = (Ok tt, s, [enqueue_event_call m; close_call])
    /\ verdict_of m
       = Some (refusal
                 "An internal error occurred: Context ID is missing, cannot execute.")
    /\ count is_session_call (trace (execute json_dumps self context s)) = 0
    /\ count is_engine_call (trace (execute json_dumps self context s)) = 0.
Proof.
  intros Hid. exists (error_message context missing_context_id).
  assert (Hv : valid_request context = false)
    by (unfold valid_request; rewrite Hid; reflexivity).
  rewrite (execute_invalid json_dumps self context s Hv).
  unfold validation_error. rewrite Hid. repeat split.
Qed.

Lemma execute_missing_context_id_witness :
  truthy (context_id no_id_request) = false
  /\ exists m,
       execute sample_dumps sample_executor no_id_request ∅
       = (Ok tt, ∅, [enqueue_event_call m; close_call])
       /\ verdict_of m
          = Some (refusal
                    "An internal error occurred: Context ID is missing, cannot execute.")
       /\ count is_session_call
            (trace (execute sample_dumps sample_executor no_id_request ∅)) = 0
       /\ count is_engine_call
            (trace (execute sample_dumps sample_executor no_id_request ∅)) = 0.
Proof.
  split; [reflexivity|].
  apply (execute_missing_context_id sample_dumps sample_executor
           no_id_request ∅).
  reflexivity.
Defined.

(** C3. A request whose payload is there but has no ['portfolio_state']
    key, or no ['trade_proposal'] key, is refused ([approved] is false),
    and [execute] calls neither [run_async] nor the session service: its
    only calls are the [enqueue_event] of the refusal and the [close]. *)
Theorem execute_incomplete_payload {σ : Type} (json_dumps : dict -> string)
    (self : RiskGuardAgentExecutor σ) (context : RequestContext) (s : σ)
    (data : dict) :
  agent_input_data_of context = Some data ->
  dict_contains "portfolio_state" data = false
  \/ dict_contains "trade_proposal" data = false ->
  exists m reason,
    execute json_dumps self context s
    = (Ok tt, s, [enqueue_event_call m; close_call])
    /\ verdict_of m = Some (refusal reason)
    /\ count is_engine_call (trace (execute json_dumps self context s)) = 0.
Proof.
  intros Hd Hkeys.
  assert (Hv : valid_request context = false).
  { unfold valid_request. rewrite Hd.
    destruct Hkeys as [-> | ->]; rewrite ?andb_false_r; reflexivity. }
  exists (error_message context (validation_error context)).
  exists ("An internal error occurred: " ++ str (validation_error context))%string.
  rewrite (execute_invalid json_dumps self context s Hv).
  repeat split.
Qed.

Lemma execute_incomplete_payload_witness :
  agent_input_data_of no_portfolio_request
  = Some [("trade_proposal", VDict [("symbol", VStr "ACME")])]
  /\ exists m reason,
       execute sample_dumps sample_executor no_portfolio_request ∅
       = (Ok tt, ∅, [enqueue_event_call m; close_call])
       /\ verdict_of m = Some (refusal reason)
       /\ count is_engine_call
            (trace (execute sample_dumps sample_executor
                      no_portfolio_request ∅)) = 0.
Proof.
  split; [reflexivity|].
  apply (execute_incomplete_payload sample_dumps sample_executor
           no_portfolio_request ∅
           [("trade_proposal", VDict [("symbol", VStr "ACME")])]).
  - reflexivity.
  - left. reflexivity.
Defined.

(** C10. The payload is read from the first part of the message alone,
    and only when that part is a data part.  When the first part is of
    another kind, or its data is empty, the request is refused ([approved]
    is false) whatever the later parts hold, with the missing payload as
    the reason when the context id is there; nothing but the
    [enqueue_event] of the refusal and the [close] is called. *)
Theorem execute_payload_first_part_only {σ : Type}
    (json_dumps : dict -> string) (self : RiskGuardAgentExecutor σ)
    (context : RequestContext) (s : σ) (m : a2a.Message) (p : a2a.Part)
    (later : list a2a.Part) :
  message context = Some m ->
  a2a.parts m = p :: later ->
  agent_input_data_of context
  = match a2a.root p with a2a.DataPart data => Some data | _ => None end
  /\ ((forall data, a2a.root p = a2a.DataPart data -> data = []) ->
      exists reply reason,
        execute json_dumps self context s
        = (Ok tt, s, [enqueue_event_call reply; close_call])
        /\ verdict_of reply = Some (refusal reason)
        /\ (truthy (context_id context) = true ->
            reason
            = "An internal error occurred: Missing 'trade_proposal' or 'portfolio_state' in data payload")).
Proof.
  intros Hm Hp.
  assert (Hd : agent_input_data_of context
               = match a2a.root p with
                 | a2a.DataPart data => Some data
                 | _ => None
                 end)
    by (unfold agent_input_data_of; rewrite Hm, Hp; reflexivity).
  split; [exact Hd|]. intros Hempty.
  assert (Hv : valid_request context = false).
  { unfold valid_request. rewrite Hd.
    destruct (a2a.root p) as [txt|f|data]; rewrite ?andb_false_r; auto.
    rewrite (Hempty data eq_refl). cbn. apply andb_false_r. }
  exists (error_message context (validation_error context)).
  exists ("An internal error occurred: " ++ str (validation_error context))%string.
  rewrite (execute_invalid json_dumps self context s Hv).
  repeat split. unfold validation_error. intros ->. reflexivity.
Qed.

Lemma execute_payload_first_part_only_witness :
  agent_input_data_of text_first_request = None
  /\ exists reply reason,
       execute sample_dumps sample_executor text_first_request ∅
       = (Ok tt, ∅, [enqueue_event_call reply; close_call])
       /\ verdict_of reply = Some (refusal reason)
       /\ (truthy (context_id text_first_request) = true ->
           reason
           = "An internal error occurred: Missing 'trade_proposal' or 'portfolio_state' in data payload").
Proof.
  destruct (execute_payload_first_part_only sample_dumps sample_executor
              text_first_request ∅ _ _ _ eq_refl eq_refl) as [Hd Hex].
  split; [exact Hd|].
  apply Hex. intros data Hdata. discriminate Hdata.
Defined.

(** C4, as the specification words it, fails: of two events that both
    carry a [risk_check_result] function response with a dict response,
    the first in its second part and the second in its first part,
    [execute] adopts the verdict of the second, after pulling both. *)
Lemma first_carrying_event_not_adopted :
  valid_request sample_request = true
  /\ carried_result second_part_event = Some early_verdict
  /\ carried_result first_part_event = Some late_verdict
  /\ events_of sample_dumps two_results_executor sample_request ∅
     = Yields second_part_event (Yields first_part_event StopAsyncIteration)
  /\ enqueued (trace (execute sample_dumps two_results_executor
                        sample_request ∅))
     = [final_message sample_request late_verdict]
  /\ enqueued (trace (execute sample_dumps two_results_executor
                        sample_request ∅))
     <> [final_message sample_request early_verdict]
  /\ consumed (trace (execute sample_dumps two_results_executor
                        sample_request ∅))
     = [second_part_event; first_part_event].
Proof.
  repeat split; try reflexivity. vm_compute. discriminate.
Qed.

(** C4, amended. For a valid request whose session is resolved, when the
    runner's generator yields the events [pre], none of which has a
    [risk_check_result] function response with a dict response in its
    first part, and then an event [ev] that has one with the response
    [response_data], [execute] answers with [response_data] as the verdict
    and has pulled exactly [pre] and [ev] from the generator, in that
    order: nothing of [rest], whatever it is, is pulled. *)
Theorem execute_adopts_first_result {σ : Type} (json_dumps : dict -> string)
    (self : RiskGuardAgentExecutor σ) (context : RequestContext) (s : σ)
    (session : Session) (pre : list Event) (ev : Event)
    (response_data : dict) (rest : AsyncGenerator) :
  valid_request context = true ->
  session_of self context s = Some session ->
  events_of json_dumps self context s = yields_all pre (Yields ev rest) ->
  Forall (fun e => risk_check_result_of e = None) pre ->
  risk_check_result_of ev = Some response_data ->
  outcome (execute json_dumps self context s) = Ok tt
  /\ enqueued (trace (execute json_dumps self context s))
     = [final_message context response_data]
  /\ verdict_of (final_message context response_data) = Some response_data
  /\ consumed (trace (execute json_dumps self context s)) = pre ++ [ev].
Proof.
  intros Hv (s1 & t1 & Hs & Ht1)%session_of_Some Hev Hpre Hres.
  pose proof (consume_first_result pre ev response_data default_result
                rest s1 Hpre Hres) as Hc.
  rewrite <- Hev in Hc.
  destruct (execute_valid_session json_dumps self context s s1 t1 _
              session _ Hv Hs Hc) as (content & ->).
  cbn [outcome trace fst snd].
  rewrite !enqueued_app, !consumed_app, consumed_anext.
  rewrite (session_calls_not_consumed _ Ht1).
  destruct (session_calls_queue_free _ Ht1) as [-> _].
  destruct (anext_calls_queue_free _ (anext_only_map (pre ++ [ev])))
    as [-> _].
  cbn. rewrite app_nil_r. repeat split.
Qed.

Lemma execute_adopts_first_result_witness :
  valid_request sample_request = true
  /\ outcome (execute sample_dumps sample_executor sample_request ∅) = Ok tt
  /\ enqueued (trace (execute sample_dumps sample_executor sample_request ∅))
     = [final_message sample_request ok_verdict]
  /\ verdict_of (final_message sample_request ok_verdict) = Some ok_verdict
  /\ consumed (trace (execute sample_dumps sample_executor sample_request ∅))
     = [text_event "checking"]
         ++ [result_event "risk_check_result" (VDict ok_verdict)].
Proof.
  split; [reflexivity|].
  apply (execute_adopts_first_result sample_dumps sample_executor
           sample_request ∅
           {| id := "s1"; session_app_name := "riskguard_adk_runner";
              session_user_id := "a2a_user"; state := [] |}
           [text_event "checking"]
           (result_event "risk_check_result" (VDict ok_verdict))
           ok_verdict StopAsyncIteration).
  - reflexivity.
  - vm_compute. reflexivity.
  - reflexivity.
  - repeat constructor.
  - reflexivity.
Defined.

(** C5. For a valid request whose session is resolved, when the runner's
    generator ends after events none of which has a [risk_check_result]
    function response with a dict response in its first part, the verdict
    [execute] answers with is the default one: [approved] false, [reason]
    "Agent did not produce a result.". *)
Theorem execute_default_result {σ : Type} (json_dumps : dict -> string)
    (self : RiskGuardAgentExecutor σ) (context : RequestContext) (s : σ)
    (session : Session) (events : list Event) :
  valid_request context = true ->
  session_of self context s = Some session ->
  events_of json_dumps self context s
  = yields_all events StopAsyncIteration ->
  Forall (fun e => risk_check_result_of e = None) events ->
  exists m,
    enqueued (trace (execute json_dumps self context s)) = [m]
    /\ verdict_of m = Some (refusal "Agent did not produce a result.").
Proof.
  intros Hv (s1 & t1 & Hs & Ht1)%session_of_Some Hev Hnone.
  pose proof (consume_no_result events default_result s1 Hnone) as Hc.
  rewrite <- Hev in Hc.
  destruct (execute_valid_session json_dumps self context s s1 t1 _
              session _ Hv Hs Hc) as (content & ->).
  exists (final_message context default_result).
  cbn [trace snd]. rewrite !enqueued_app.
  destruct (session_calls_queue_free _ Ht1) as [-> _].
  destruct (anext_calls_queue_free _ (anext_only_map events)) as [-> _].
  split; reflexivity.
Qed.

Lemma execute_default_result_witness :
  valid_request sample_request = true
  /\ exists m,
       enqueued (trace (execute sample_dumps silent_executor sample_request ∅))
       = [m]
       /\ verdict_of m = Some (refusal "Agent did not produce a result.").
Proof.
  split; [reflexivity|].
  apply (execute_default_result sample_dumps silent_executor sample_request ∅
           {| id := "s1"; session_app_name := "riskguard_adk_runner";
              session_user_id := "a2a_user"; state := [] |}
           [text_event "checking";
            result_event "other_tool" (VDict ok_verdict);
            result_event "risk_check_result" (VStr "approved")]).
  - reflexivity.
  - vm_compute. reflexivity.
  - reflexivity.
  - repeat constructor.
Defined.

(** C9. Only the first part of an event's content decides: the result
    read from an event is that of its first part, whatever the other
    parts.  So an event whose first part has no matching function
    response is skipped even when a later part has one: the loop records
    the event as pulled and goes on with the next one, its verdict so far
    unchanged. *)
Theorem consume_first_part_only {σ : Type} (first_part : genai_types.Part)
    (others : list genai_types.Part) (rest : AsyncGenerator) (acc : dict)
    (s : σ) :
  risk_check_result_of (event_with (first_part :: others))
  = part_result first_part
  /\ (part_result first_part = None ->
      consume (Yields (event_with (first_part :: others)) rest) acc s
      = (outcome (consume rest acc s), store (consume rest acc s),
         anext_call (event_with (first_part :: others))
           :: trace (consume rest acc s))).
Proof.
  split; [reflexivity|]. intros Hnone.
  cbn [consume]. unfold bind, emit.
  change (risk_check_result_of (event_with (first_part :: others)))
    with (part_result first_part).
  rewrite Hnone. destruct (consume rest acc s) as [[r s1] t]. reflexivity.
Qed.

Lemma consume_first_part_only_witness :
  part_result (text_part "checking") = None
  /\ part_result (result_part (VDict ok_verdict)) = Some ok_verdict
  /\ consume (σ := unit)
       (Yields (event_with [text_part "checking";
                            result_part (VDict ok_verdict)])
          StopAsyncIteration)
       default_result tt
     = (Ok default_result, tt,
        [anext_call (event_with [text_part "checking";
                                 result_part (VDict ok_verdict)])]).
Proof.
  split; [reflexivity|]. split; [reflexivity|].
  apply (proj2 (consume_first_part_only (text_part "checking")
                  [result_part (VDict ok_verdict)] StopAsyncIteration
                  default_result tt)).
  reflexivity.
Defined.




(** C7. For a valid request, when [get_session] raises or returns [None]
    and the [create_session] that follows raises or returns [None] too,
    [execute] makes exactly these calls: the [get_session], the
    [create_session], the [enqueue_event] of one refusal whose reason is
    "An internal error occurred: Failed to establish ADK session.
    session_id was '<context id>'.", and the [close].  The runner is not
    called and [execute] returns normally. *)
Theorem execute_session_unavailable {σ : Type} (json_dumps : dict -> string)
    (self : RiskGuardAgentExecutor σ) (context : RequestContext) (s : σ)
    (cid : string) :
  valid_request context = true ->
  context_id context = Some cid ->
  nothing (get_answer self cid s) = true ->
  nothing (create_answer self cid s) = true ->
  exists m,
    execute json_dumps self context s
    = (Ok tt, snd (create_answer self cid s),
       [get_session_call (app_name (_adk_runner self)) "a2a_user" cid;
        create_session_call (app_name (_adk_runner self)) "a2a_user" cid [];
        enqueue_event_call m;
        close_call])
    /\ verdict_of m
       = Some (refusal
                 ("An internal error occurred: Failed to establish ADK session. session_id was '"
                    ++ cid ++ "'."))
    /\ count is_engine_call (trace (execute json_dumps self context s)) = 0.
Proof.
  intros Hv Hcid Hget Hcreate.
  assert (Hid : truthy (Some cid) = true).
  { apply valid_request_data in Hv as (_ & _ & Hid & _).
    rewrite Hcid in Hid. exact Hid. }
  assert (Hs : ensure_session self (context_id context) s
               = (Ok None, snd (create_answer self cid s),
                  [get_session_call (app_name (_adk_runner self))
                     "a2a_user" cid;
                   create_session_call (app_name (_adk_runner self))
                     "a2a_user" cid []])).
  { rewrite Hcid. unfold ensure_session. rewrite Hid.
    unfold nothing, create_answer, get_answer in *.
    unfold bind, try_except, invoke, ret. cbv zeta in *.
    destruct (get_session _ _ _ _ s) as [[[session|]|e_get] s1];
      cbn in *; try discriminate Hget;
      destruct (create_session _ _ _ _ _ s1) as [[[created|]|e_create] s2];
      cbn in *; try discriminate Hcreate; reflexivity. }
  exists (error_message context (no_session (context_id context))).
  rewrite (execute_valid_no_session json_dumps self context s _ _ Hv Hs).
  rewrite Hcid. repeat split.
Qed.

Lemma execute_session_unavailable_witness :
  valid_request sample_request = true
  /\ nothing (get_answer stranded_executor "s1" tt) = true
  /\ nothing (create_answer stranded_executor "s1" tt) = true
  /\ exists m,
       execute sample_dumps stranded_executor sample_request tt
       = (Ok tt, tt,
          [get_session_call "riskguard_adk_runner" "a2a_user" "s1";
           create_session_call "riskguard_adk_runner" "a2a_user" "s1" [];
           enqueue_event_call m;
           close_call])
       /\ verdict_of m
          = Some (refusal
                    "An internal error occurred: Failed to establish ADK session. session_id was 's1'.")
       /\ count is_engine_call
            (trace (execute sample_dumps stranded_executor sample_request tt))
          = 0.
Proof.
  split; [reflexivity|]. split; [reflexivity|]. split; [reflexivity|].
  apply (execute_session_unavailable sample_dumps stranded_executor
           sample_request tt "s1"); reflexivity.
Defined.





(** ** Further properties: validation *)

Lemma dict_contains_keys (k : string) (d : dict) :
  dict_contains k d = true <-> In k (keys d).
Proof.
  unfold dict_contains, keys. rewrite existsb_exists, in_map_iff.
  split.
  - intros (kv & Hin & Heq). apply String.eqb_eq in Heq. eauto.
  - intros (kv & Heq & Hin). exists kv. split; [exact Hin|].
    apply String.eqb_eq. exact Heq.
Qed.

Lemma truthy_context_id (cid : option string) :
  truthy cid = true <-> exists id, cid = Some id /\ id <> "".
Proof.
  destruct cid as [id|].
  - change (truthy (Some id)) with (negb (String.eqb id "")).
    rewrite negb_true_iff, String.eqb_neq.
    split; [eauto|]. intros (id' & [= <-] & Hne). exact Hne.
  - split; [discriminate|]. intros (id & Heq & _). discriminate Heq.
Qed.

(** X1. The requests lines 36-52 let through are exactly those with a
    non-empty context id and a message whose first part is a data part
    that has both keys ['trade_proposal'] and ['portfolio_state']; the
    values under the keys and the later parts play no role. *)
Theorem valid_request_iff (context : RequestContext) :
  valid_request context = true
  <-> exists cid m p later data,
        context_id context = Some cid /\ cid <> ""
        /\ message context = Some m
        /\ a2a.parts m = p :: later
        /\ a2a.root p = a2a.DataPart data
        /\ In "trade_proposal" (keys data)
        /\ In "portfolio_state" (keys data).
Proof.
  unfold valid_request, agent_input_data_of. split.
  - intros [Hid Hrest]%andb_true_iff.
    apply truthy_context_id in Hid as (cid & Hcid & Hne).
    destruct (message context) as [m|]; [|discriminate].
    cbn [truthy truthy_option truthy_message andb] in Hrest.
    destruct (a2a.parts m) as [|p later] eqn:Hparts; [discriminate|].
    cbn [truthy truthy_list] in Hrest.
    destruct (a2a.root p) as [txt|f|data] eqn:Hroot; try discriminate.
    apply andb_true_iff in Hrest as [[_ Ht]%andb_true_iff Hp].
    apply dict_contains_keys in Ht, Hp.
    exists cid, m, p, later, data. repeat split; assumption.
  - intros (cid & m & p & later & data & Hcid & Hne & Hm & Hparts & Hroot
            & Ht & Hp).
    assert (Hid : truthy (context_id context) = true)
      by (apply truthy_context_id; eauto).
    rewrite Hid, Hm. cbn [truthy truthy_option truthy_message andb].
    rewrite Hparts. cbn [truthy truthy_list]. rewrite Hroot.
    apply dict_contains_keys in Ht as Ht', Hp as Hp'. rewrite Ht', Hp'.
    destruct data; [destruct Ht|reflexivity].
Qed.

(** X3. A request with a context id but no message, or with a message
    that has no parts, is refused for its missing payload; nothing is
    called but the [enqueue_event] of the refusal and the [close]. *)
Theorem execute_no_message {σ : Type} (json_dumps : dict -> string)
    (self : RiskGuardAgentExecutor σ) (context : RequestContext) (s : σ) :
  truthy (context_id context) = true ->
  message context = None
  \/ (exists m, message context = Some m /\ a2a.parts m = []) ->
  exists reply,
    execute json_dumps self context s
    = (Ok tt, s, [enqueue_event_call reply; close_call])
    /\ verdict_of reply
       = Some (refusal
                 "An internal error occurred: Missing 'trade_proposal' or 'portfolio_state' in data payload")
    /\ a2a.context_id reply = context_id context
    /\ a2a.task_id reply = task_id context.
Proof.
  intros Hid Hmsg.
  assert (Hv : valid_request context = false).
  { unfold valid_request, agent_input_data_of.
    destruct Hmsg as [-> | (m & -> & Hparts)].
    - apply andb_false_r.
    - rewrite Hparts. apply andb_false_r. }
  exists (error_message context (validation_error context)).
  rewrite (execute_invalid json_dumps self context s Hv).
  unfold validation_error. rewrite Hid. repeat split.
Qed.

Lemma execute_no_message_witness :
  truthy (context_id no_parts_request) = true
  /\ exists reply,
       execute sample_dumps sample_executor no_parts_request ∅
       = (Ok tt, ∅, [enqueue_event_call reply; close_call])
       /\ verdict_of reply
          = Some (refusal
                    "An internal error occurred: Missing 'trade_proposal' or 'portfolio_state' in data payload")
       /\ a2a.context_id reply = context_id no_parts_request
       /\ a2a.task_id reply = task_id no_parts_request.
Proof.
  split; [reflexivity|].
  apply (execute_no_message sample_dumps sample_executor no_parts_request ∅).
  - reflexivity.
  - right. eexists. split; reflexivity.
Defined.

(** ** Further properties: the scan of the events *)

(** X4. An event gives the loop a verdict exactly when it has a content,
    the content has parts, and the first part has a function response
    named ['risk_check_result'] whose response is a dict, which then is
    the verdict.  An event without content or without parts, a response
    under another name, and a response that is no dict give none. *)
Theorem risk_check_result_iff (event : Event) (d : dict) :
  risk_check_result_of event = Some d
  <-> exists c first_part others fr,
        content event = Some c
        /\ genai_types.parts c = first_part :: others
        /\ genai_types.function_response first_part = Some fr
        /\ genai_types.name fr = Some "risk_check_result"
        /\ genai_types.response fr = VDict d.
Proof.
  unfold risk_check_result_of, part_result. split.
  - destruct (content event) as [c|] eqn:Hc; [|discriminate].
    cbn [truthy truthy_option truthy_content andb].
    destruct (genai_types.parts c) as [|first_part others] eqn:Hparts;
      [discriminate|].
    cbn [truthy truthy_list].
    destruct (genai_types.function_response first_part) as [fr|] eqn:Hfr;
      [|discriminate].
    cbn [truthy truthy_option truthy_function_response andb].
    destruct (genai_types.name fr) as [n|] eqn:Hn; [|discriminate].
    destruct (String.eqb n "risk_check_result") eqn:Heq; [|discriminate].
    apply String.eqb_eq in Heq. subst n.
    destruct (genai_types.response fr) eqn:Hr; try discriminate.
    intros [= ->]. exists c, first_part, others, fr. repeat split; auto.
  - intros (c & first_part & others & fr & -> & Hparts & Hfr & Hn & Hr).
    cbn [truthy truthy_option truthy_content andb]. rewrite Hparts.
    cbn [truthy truthy_list]. rewrite Hfr.
    cbn [truthy truthy_option truthy_function_response andb].
    rewrite Hn, Hr. reflexivity.
Qed.

(** X5. What the loop of lines 124-139 does on any generator.  Either
    some event of the generator gives a verdict: the loop returns the
    verdict of the first such event and has pulled the events up to and
    including it.  Or no event gives one: the loop has pulled every
    event, and it returns the verdict it started with when the generator
    ended, and raises the generator's exception when the generator
    raised. *)
Theorem consume_first_or_all {σ : Type} (events : AsyncGenerator)
    (acc : dict) (s : σ) :
  let r := consume events acc s in
  (exists pre ev d rest,
      events_in events = pre ++ ev :: rest
      /\ Forall (fun e => risk_check_result_of e = None) pre
      /\ risk_check_result_of ev = Some d
      /\ outcome r = Ok d
      /\ consumed (trace r) = pre ++ [ev])
  \/ (Forall (fun e => risk_check_result_of e = None) (events_in events)
      /\ consumed (trace r) = events_in events
      /\ outcome r = match ending events with
                     | None => Ok acc
                     | Some e => Raised e
                     end).
Proof.
  cbv zeta.
  induction events as [|e|ev rest IH]; cbn [consume events_in ending].
  - right. repeat split. constructor.
  - right. repeat split. constructor.
  - unfold bind, emit.
    destruct (risk_check_result_of ev) as [d|] eqn:Hev.
    + left. exists [], ev, d, (events_in rest). repeat split; auto.
    + destruct (consume rest acc s) as [[r s1] t].
      cbn [outcome trace fst snd consumed app] in *.
      destruct IH as [(pre & ev' & d & rest' & Hg & Hpre & Hd & Hr & Hc)
                     |(Hnone & Hc & Hr)].
      * left. exists (ev :: pre), ev', d, rest'.
        rewrite Hg, Hc. repeat split; auto.
      * right. rewrite Hc. repeat split; [constructor; assumption|].
        exact Hr.
Qed.

Lemma consume_raises {σ : Type} (pre : list Event) (e : exn) (acc : dict)
    (s : σ) :
  Forall (fun ev => risk_check_result_of ev = None) pre ->
  consume (yields_all pre (Raises e)) acc s
  = (Raised e, s, map anext_call pre).
Proof.
  induction 1 as [|ev pre He _ IH]; cbn [yields_all consume].
  - reflexivity.
  - unfold bind, emit. rewrite He, IH. reflexivity.
Qed.

(** X6. For a valid request whose session is resolved, when the runner's
    generator raises [e] after events none of which gives a verdict,
    [execute] still returns normally: it answers with one refusal whose
    reason is "An internal error occurred: " followed by [str(e)], having
    pulled exactly the events before the exception, and closes the queue
    once. *)
Theorem execute_engine_raises {σ : Type} (json_dumps : dict -> string)
    (self : RiskGuardAgentExecutor σ) (context : RequestContext) (s : σ)
    (session : Session) (pre : list Event) (e : exn) :
  valid_request context = true ->
  session_of self context s = Some session ->
  events_of json_dumps self context s = yields_all pre (Raises e) ->
  Forall (fun ev => risk_check_result_of ev = None) pre ->
  exists reply,
    outcome (execute json_dumps self context s) = Ok tt
    /\ enqueued (trace (execute json_dumps self context s)) = [reply]
    /\ verdict_of reply
       = Some (refusal ("An internal error occurred: " ++ str e))
    /\ consumed (trace (execute json_dumps self context s)) = pre
    /\ count is_close (trace (execute json_dumps self context s)) = 1.
Proof.
  intros Hv (s1 & t1 & Hs & Ht1)%session_of_Some Hev Hpre.
  pose proof (consume_raises pre e default_result s1 Hpre) as Hc.
  rewrite <- Hev in Hc.
  destruct (execute_valid_session json_dumps self context s s1 t1 _
              session _ Hv Hs Hc) as (content & ->).
  exists (error_message context e).
  cbn [outcome trace fst snd].
  rewrite !enqueued_app, !consumed_app, !count_app, consumed_anext.
  rewrite (session_calls_not_consumed _ Ht1).
  destruct (session_calls_queue_free _ Ht1) as [-> ->].
  destruct (anext_calls_queue_free _ (anext_only_map pre)) as [-> ->].
  cbn. rewrite app_nil_r. repeat split.
Qed.

Lemma execute_engine_raises_witness :
  valid_request sample_request = true
  /\ exists reply,
       outcome (execute sample_dumps crashing_executor sample_request ∅)
       = Ok tt
       /\ enqueued (trace (execute sample_dumps crashing_executor
                             sample_request ∅)) = [reply]
       /\ verdict_of reply
          = Some (refusal "An internal error occurred: model unavailable")
       /\ consumed (trace (execute sample_dumps crashing_executor
                             sample_request ∅)) = [text_event "checking"]
       /\ count is_close (trace (execute sample_dumps crashing_executor
                                   sample_request ∅)) = 1.
Proof.
  split; [reflexivity|].
  apply (execute_engine_raises sample_dumps crashing_executor sample_request
           ∅ (created_session "s1") [text_event "checking"]
           (OtherException "RuntimeError" "model unavailable")).
  - reflexivity.
  - vm_compute. reflexivity.
  - reflexivity.
  - repeat constructor.
Defined.

(** ** Further properties: the session and the run *)


(** Lines 65-106 for a non-empty session id: one [get_session]; when it
    brings no session, one [create_session]. *)
Lemma ensure_session_cases {σ : Type} (self : RiskGuardAgentExecutor σ)
    (cid : string) (s : σ) :
  truthy (Some cid) = true ->
  ensure_session self (Some cid) s
  = if nothing (get_answer self cid s)
    then (Ok (created (create_answer self cid s)),
          snd (create_answer self cid s),
          [get_call self cid; create_call self cid])
    else (fst (get_answer self cid s), snd (get_answer self cid s),
          [get_call self cid]).
Proof.
  intros Hid. unfold ensure_session. rewrite Hid.
  unfold nothing, created, create_answer, get_answer, get_call, create_call.
  unfold bind, try_except, invoke, ret. cbv zeta.
  destruct (get_session _ _ _ _ s) as [[[session|]|e_get] s1];
    cbn; try reflexivity;
    destruct (create_session _ _ _ _ _ s1) as [[created_|e_create] s2];
    reflexivity.
Qed.


Lemma valid_request_id (context : RequestContext) :
  valid_request context = true ->
  exists cid, context_id context = Some cid /\ truthy (Some cid) = true.
Proof.
  intros (_ & _ & Hid & _)%valid_request_data.
  destruct (context_id context) as [cid|]; [eauto|discriminate Hid].
Qed.


(** [execute] on a valid request with its session, the message for the
    agent spelled out. *)
Lemma execute_valid_run {σ : Type} (json_dumps : dict -> string)
    (self : RiskGuardAgentExecutor σ) (context : RequestContext) (s s1 : σ)
    (t1 : list call) (session : Session) (data : dict) :
  valid_request context = true ->
  agent_input_data_of context = Some data ->
  ensure_session self (context_id context) s = (Ok (Some session), s1, t1) ->
  exists r t2,
    anext_calls_only t2
    /\ execute json_dumps self context s
       = (Ok tt, s1,
          t1 ++ [run_async_call "a2a_user" (context_id context)
                   (adk_content_of json_dumps data)]
             ++ t2
             ++ [enqueue_event_call
                   match r with
                   | Ok d => final_message context d
                   | Raised e => error_message context e
                   end;
                 close_call]).
Proof.
  intros Hv Hd Hs.
  destruct (consume_pulls (events_of json_dumps self context s)
              default_result s1) as (r & t2 & Hc & Ht2).
  exists r, t2. split; [exact Ht2|].
  apply valid_request_data in Hv as (data' & Hd' & Hid & Hok).
  rewrite Hd in Hd'. injection Hd' as <-.
  unfold events_of in Hc. rewrite Hd, Hs in Hc. cbn [store fst snd] in Hc.
  unfold execute, try_finally, try_except.
  unfold execute_try, check_payload, run_async, bind, ret, raise, emit.
  cbv zeta.
  rewrite Hid, Hd, Hok. cbn [negb]. rewrite Hs.
  cbn [negb truthy truthy_option truthy_session]. rewrite Hc.
  destruct r as [d|e]; cbn; unfold final_message; f_equal; same_trace.
Qed.

(** The loop neither reads nor changes the store. *)
Lemma consume_any_store {σ : Type} (events : AsyncGenerator) (acc : dict)
    (s s' : σ) :
  consume events acc s'
  = (outcome (consume events acc s), s', trace (consume events acc s)).
Proof.
  induction events as [|e|ev rest IH]; cbn [consume]; try reflexivity.
  unfold bind, emit. destruct (risk_check_result_of ev) as [d|];
    [reflexivity|].
  rewrite IH. destruct (consume rest acc s) as [[r s1] t]. reflexivity.
Qed.

(** X7. The calls of [execute] for a valid request whose session is
    resolved, in order: the [get_session], followed by the
    [create_session] exactly when the lookup raised or returned [None];
    one [run_async] for the user "a2a_user" and the session id of the
    request, whose message is one text part holding [json.dumps] of the
    payload; the events the loop pulls; the [enqueue_event] of the
    verdict the loop returned, or of the refusal for the exception it
    raised; the [close]. *)
Theorem execute_call_order {σ : Type} (json_dumps : dict -> string)
    (self : RiskGuardAgentExecutor σ) (context : RequestContext) (s : σ)
    (cid : string) (data : dict) (session : Session) :
  valid_request context = true ->
  context_id context = Some cid ->
  agent_input_data_of context = Some data ->
  session_of self context s = Some session ->
  let loop := consume (events_of json_dumps self context s) default_result s in
  trace (execute json_dumps self context s)
  = (if nothing (get_answer self cid s)
     then [get_call self cid; create_call self cid]
     else [get_call self cid])
    ++ [run_async_call "a2a_user" (Some cid)
          {| genai_types.parts :=
               [ {| genai_types.text := Some (json_dumps data);
                    genai_types.function_response := None |} ] |}]
    ++ trace loop
    ++ [enqueue_event_call
          match outcome loop with
          | Ok d => final_message context d
          | Raised e => error_message context e
          end;
        close_call]
  /\ anext_calls_only (trace loop).
Proof.
  intros Hv Hcid Hd (s1 & t1 & Hs & _)%session_of_Some. cbv zeta.
  destruct (consume_pulls (events_of json_dumps self context s)
              default_result s) as (r & t2 & Hc & Ht2).
  rewrite Hc. cbn [outcome trace fst snd]. split; [|exact Ht2].
  pose proof (consume_any_store (events_of json_dumps self context s)
                default_result s s1) as Hc1.
  rewrite Hc in Hc1. cbn [outcome trace fst snd] in Hc1.
  assert (Ht1 : t1 = if nothing (get_answer self cid s)
                     then [get_call self cid; create_call self cid]
                     else [get_call self cid]).
  { destruct (valid_request_id context Hv) as (cid' & Hcid' & Hid).
    rewrite Hcid in Hcid'. injection Hcid' as <-.
    pose proof Hs as Hs'.
    rewrite Hcid, (ensure_session_cases self cid s Hid) in Hs'.
    destruct (nothing (get_answer self cid s)); injection Hs' as _ _ <-;
      reflexivity. }
  rewrite <- Ht1.
  pose proof (valid_request_data context Hv) as (data' & Hd' & Hid & Hok).
  rewrite Hd in Hd'. injection Hd' as <-.
  unfold events_of in Hc1. rewrite Hd, Hs in Hc1. cbn [store fst snd] in Hc1.
  unfold execute, try_finally, try_except.
  unfold execute_try, check_payload, run_async, bind, ret, raise, emit.
  cbv zeta.
  rewrite Hid, Hd, Hok. cbn [negb]. rewrite Hs.
  cbn [negb truthy truthy_option truthy_session]. rewrite Hc1, Hcid.
  destruct r as [d|e]; cbn; unfold final_message; rewrite ?Hcid;
    same_trace.
Qed.

Lemma execute_call_order_witness :
  valid_request sample_request = true
  /\ trace (execute sample_dumps sample_executor sample_request ∅)
     = [get_call sample_executor "s1"; create_call sample_executor "s1"]
       ++ [run_async_call "a2a_user" (Some "s1")
             {| genai_types.parts :=
                  [ {| genai_types.text := Some (sample_dumps sample_payload);
                       genai_types.function_response := None |} ] |}]
       ++ [anext_call (text_event "checking");
           anext_call (result_event "risk_check_result" (VDict ok_verdict))]
       ++ [enqueue_event_call (final_message sample_request ok_verdict);
           close_call].
Proof.
  split; [reflexivity|].
  assert (Hsession : session_of sample_executor sample_request ∅
                     = Some (created_session "s1"))
    by (vm_compute; reflexivity).
  exact (proj1 (execute_call_order sample_dumps sample_executor
                  sample_request ∅ "s1" sample_payload
                  (created_session "s1") eq_refl eq_refl eq_refl Hsession)).
Defined.

(** X9. For a valid request, when [get_session] returns a session,
    [create_session] is not called: the session found is the one the run
    uses and the only call on the session service is that
    [get_session]. *)
Theorem execute_found_session {σ : Type} (json_dumps : dict -> string)
    (self : RiskGuardAgentExecutor σ) (context : RequestContext) (s : σ)
    (cid : string) (session : Session) :
  valid_request context = true ->
  context_id context = Some cid ->
  fst (get_answer self cid s) = Ok (Some session) ->
  session_of self context s = Some session
  /\ count is_create_session (trace (execute json_dumps self context s)) = 0
  /\ count is_session_call (trace (execute json_dumps self context s)) = 1
  /\ count is_run_async (trace (execute json_dumps self context s)) = 1.
Proof.
  intros Hv Hcid Hget.
  destruct (valid_request_id context Hv) as (cid' & Hcid' & Hid).
  rewrite Hcid in Hcid'. injection Hcid' as <-.
  pose proof (ensure_session_cases self cid s Hid) as Hs.
  unfold nothing in Hs. rewrite Hget in Hs. rewrite <- Hcid in Hs.
  assert (Hso : session_of self context s = Some session)
    by (unfold session_of, outcome; rewrite Hs; reflexivity).
  split; [exact Hso|].
  destruct (valid_request_data context Hv) as (data & Hd & _).
  destruct (execute_valid_run json_dumps self context s _ _ session data
              Hv Hd Hs) as (r & t2 & Ht2 & ->).
  cbn [trace store fst snd]. rewrite !count_app.
  rewrite (anext_calls_count is_create_session t2 (fun _ => eq_refl) Ht2).
  rewrite (anext_calls_count is_session_call t2 (fun _ => eq_refl) Ht2).
  rewrite (anext_calls_count is_run_async t2 (fun _ => eq_refl) Ht2).
  repeat split.
Qed.

Lemma execute_found_session_witness :
  valid_request second_request = true
  /\ session_of sample_executor second_request (store_with "s1")
     = Some (created_session "s1")
  /\ count is_create_session
       (trace (execute sample_dumps sample_executor second_request
                 (store_with "s1"))) = 0
  /\ count is_session_call
       (trace (execute sample_dumps sample_executor second_request
                 (store_with "s1"))) = 1
  /\ count is_run_async
       (trace (execute sample_dumps sample_executor second_request
                 (store_with "s1"))) = 1.
Proof.
  split; [reflexivity|].
  apply (execute_found_session sample_dumps sample_executor second_request
           (store_with "s1") "s1" (created_session "s1")).
  - reflexivity.
  - reflexivity.
  - vm_compute. reflexivity.
Defined.

(** X10. For a valid request, an exception of [get_session] is not an
    error of the request: like a lookup that returns [None] it leads to
    [create_session], and when that returns a session the agent is run
    with it.  The calls start with the [get_session], the
    [create_session] and the [run_async]. *)
Theorem execute_create_recovers {σ : Type} (json_dumps : dict -> string)
    (self : RiskGuardAgentExecutor σ) (context : RequestContext) (s : σ)
    (cid : string) (session : Session) :
  valid_request context = true ->
  context_id context = Some cid ->
  nothing (get_answer self cid s) = true ->
  fst (create_answer self cid s) = Ok (Some session) ->
  session_of self context s = Some session
  /\ exists content t,
       trace (execute json_dumps self context s)
       = get_call self cid :: create_call self cid
           :: run_async_call "a2a_user" (Some cid) content :: t.
Proof.
  intros Hv Hcid Hget Hcreate.
  destruct (valid_request_id context Hv) as (cid' & Hcid' & Hid).
  rewrite Hcid in Hcid'. injection Hcid' as <-.
  pose proof (ensure_session_cases self cid s Hid) as Hs.
  rewrite Hget in Hs. unfold created in Hs. rewrite Hcreate in Hs.
  rewrite <- Hcid in Hs.
  split; [unfold session_of, outcome; rewrite Hs; reflexivity|].
  destruct (valid_request_data context Hv) as (data & Hd & _).
  destruct (execute_valid_run json_dumps self context s _ _ session data
              Hv Hd Hs) as (r & t2 & Ht2 & ->).
  cbn [trace snd app]. rewrite Hcid. do 2 eexists. reflexivity.
Qed.

Lemma execute_create_recovers_witness :
  valid_request sample_request = true
  /\ nothing (get_answer flaky_executor "s1" tt) = true
  /\ session_of flaky_executor sample_request tt
     = Some (created_session "s1")
  /\ exists content t,
       trace (execute sample_dumps flaky_executor sample_request tt)
       = get_call flaky_executor "s1" :: create_call flaky_executor "s1"
           :: run_async_call "a2a_user" (Some "s1") content :: t.
Proof.
  split; [reflexivity|]. split; [reflexivity|].
  apply (execute_create_recovers sample_dumps flaky_executor sample_request
           tt "s1" (created_session "s1")); reflexivity.
Defined.

(** ** Further properties: sessions kept in memory

    The agent reads the sessions; what it writes to its own session is
    outside the model, it adds and removes no session. *)












(** ** [execute] in any environment *)

Section GeneralSteps.
Context {ω : Type}.
Variable json_dumps : dict -> General.result string.
Variable self : General.RiskGuardAgentExecutor ω.
Variable event_queue : General.EventQueue ω.

(** Session resolution lets no [Exception] out, only another
    [BaseException]; it talks to the session service alone, and for a
    non-empty id its first call is the [get_session]. *)
Lemma general_ensure_session (sid : option string) (s : ω) :
  exists r s1 t,
    General.ensure_session self sid s = (r, s1, t)
    /\ session_calls_only t
    /\ (forall e, r <> General.Raised (General.exception e))
    /\ (truthy sid = true -> exists c t', t = c :: t')
    /\ ((forall a u i s',
           General.no_base_exception
             (fst (General.get_session
                     (General.session_service (General._adk_runner self))
                     a u i s')))
        -> (forall a u i st s',
              General.no_base_exception
                (fst (General.create_session
                        (General.session_service (General._adk_runner self))
                        a u i st s')))
        -> exists o, r = General.Ok o).
Proof.
  unfold General.ensure_session, session_calls_only.
  destruct sid as [sid|];
    [|do 3 eexists; repeat split;
      [constructor|discriminate|discriminate|eauto]].
  destruct (truthy (Some sid)) eqn:Hid;
    [|do 3 eexists; repeat split;
      [constructor|discriminate|discriminate|eauto]].
  unfold General.bind, General.try_except, General.invoke, General.ret.
  cbv zeta.
  destruct (General.get_session _ _ _ _ s) as [[[session|]|[e_get|c m]] s1]
    eqn:Hget; cbn.
  - do 3 eexists. repeat split; [repeat constructor|discriminate|eauto|eauto].
  - destruct (General.create_session _ _ _ _ _ s1)
      as [[created_|[e_create|c m]] s2] eqn:Hcreate; cbn;
      do 3 eexists; (repeat split;
        [repeat constructor|discriminate|eauto|]); eauto.
    intros _ Hc. specialize (Hc (General.app_name (General._adk_runner self))
                               "a2a_user" sid [] s1).
    rewrite Hcreate in Hc. destruct Hc.
  - destruct (General.create_session _ _ _ _ _ s1)
      as [[created_|[e_create|c m]] s2] eqn:Hcreate; cbn;
      do 3 eexists; (repeat split;
        [repeat constructor|discriminate|eauto|]); eauto.
    intros _ Hc. specialize (Hc (General.app_name (General._adk_runner self))
                               "a2a_user" sid [] s1).
    rewrite Hcreate in Hc. destruct Hc.
  - do 3 eexists. repeat split; [repeat constructor|discriminate|eauto|].
    intros Hg _. specialize (Hg (General.app_name (General._adk_runner self))
                               "a2a_user" sid s).
    rewrite Hget in Hg. destruct Hg.
Qed.

Lemma general_consume (events : General.AsyncGenerator) (acc : dict) (s : ω) :
  exists r t,
    General.consume events acc s = (r, s, t)
    /\ anext_calls_only t
    /\ (General.raises_exceptions_only events -> General.no_base_exception r).
Proof.
  unfold anext_calls_only.
  induction events as [|r|ev rest IH]; cbn [General.consume].
  - do 2 eexists. repeat split. constructor.
  - do 2 eexists. repeat split; [constructor|]. intros H. exact H.
  - unfold General.bind, General.invoke.
    destruct (risk_check_result_of ev) as [d|].
    + do 2 eexists. repeat split. repeat econstructor.
    + destruct IH as (r & t & -> & Ht & Hr).
      do 2 eexists. repeat split; [|exact Hr].
      constructor; [eexists; reflexivity|assumption].
Qed.

(** The calls of [execute]: those of the [try], the [enqueue_event] of
    the [except] branch when the [try] raised an [Exception], and the
    [close] of the [finally]. *)
Lemma general_execute_trace (context : RequestContext) (s : ω) :
  General.trace (General.execute json_dumps self context event_queue s)
  = General.trace (General.execute_try json_dumps self context event_queue s)
    ++ match General.outcome (General.execute_try json_dumps self context
                        event_queue s) with
       | General.Raised (General.exception e) =>
           [enqueue_event_call (error_message context e)]
       | _ => []
       end
    ++ [close_call].
Proof.
  unfold General.execute, General.try_finally, General.try_except,
    General.invoke.
  destruct (General.execute_try json_dumps self context event_queue s)
    as [[[u|[e|c m]] s1] t0]; cbn [General.outcome General.trace fst snd].
  - destruct (General.close event_queue s1) as [[?|?] ?]; reflexivity.
  - destruct (General.enqueue_event event_queue _ s1) as [r1 s2].
    destruct (General.close event_queue s2) as [[?|?] ?]; cbn;
      rewrite <- app_assoc; reflexivity.
  - destruct (General.close event_queue s1) as [[?|?] ?]; reflexivity.
Qed.

(** With a queue that takes every call, [execute] returns unless the
    [try] raised a [BaseException] that is no [Exception]. *)
Lemma general_execute_outcome (context : RequestContext) (s : ω) :
  accepts event_queue ->
  General.outcome (General.execute json_dumps self context event_queue s)
  = match General.outcome (General.execute_try json_dumps self context
                     event_queue s) with
    | General.Raised (General.base_exception c m) =>
        General.Raised (General.base_exception c m)
    | _ => General.Ok tt
    end.
Proof.
  intros [Henq Hclose].
  unfold General.execute, General.try_finally, General.try_except,
    General.invoke.
  destruct (General.execute_try json_dumps self context event_queue s)
    as [[[u|[e|c m]] s1] t0]; cbn [General.outcome General.trace fst snd].
  - pose proof (Hclose s1) as H.
    destruct (General.close event_queue s1) as [r2 s3]. cbn in H. subst r2.
    destruct u. reflexivity.
  - pose proof (Henq (error_message context e) s1) as H1.
    destruct (General.enqueue_event event_queue _ s1) as [r1 s2].
    cbn in H1. subst r1. pose proof (Hclose s2) as H.
    destruct (General.close event_queue s2) as [r2 s3]. cbn in H. subst r2.
    reflexivity.
  - pose proof (Hclose s1) as H.
    destruct (General.close event_queue s1) as [r2 s3]. cbn in H. subst r2.
    reflexivity.
Qed.

(** The ways the [try] goes. *)
Lemma general_execute_try_paths (context : RequestContext) (s : ω) :
  let try_ := General.execute_try json_dumps self context event_queue s in
  (valid_request context = false
   /\ try_ = (General.Raised (General.exception (validation_error context)),
              s, []))
  \/ (valid_request context = true
      /\ exists data,
           agent_input_data_of context = Some data
           /\ ((exists r,
                   json_dumps data = General.Raised r
                   /\ try_ = (General.Raised r, s, []))
               \/ (exists agent_input_json rs s1 t1,
                      json_dumps data = General.Ok agent_input_json
                      /\ General.ensure_session self (context_id context) s
                         = (rs, s1, t1)
                      /\ session_calls_only t1
                      /\ (exists c t', t1 = c :: t')
                      /\ match rs with
                         | General.Raised r =>
                             (exists c m, r = General.base_exception c m)
                             /\ try_ = (General.Raised r, s1, t1)
                         | General.Ok None =>
                             try_
                             = (General.Raised
                                  (General.exception
                                     (no_session (context_id context))),
                                s1, t1)
                         | General.Ok (Some session) =>
                             exists rc t2,
                               General.consume
                                 (General.agent (General._adk_runner self)
                                    (General.app_name
                                       (General._adk_runner self))
                                    "a2a_user" (context_id context)
                                    (General.adk_content agent_input_json) s1)
                                 default_result s1
                               = (rc, s1, t2)
                               /\ anext_calls_only t2
                               /\ try_
                                  = match rc with
                                    | General.Raised r =>
                                        (General.Raised r, s1,
                                         t1 ++ [run_async_call "a2a_user"
                                                  (context_id context)
                                                  (General.adk_content
                                                     agent_input_json)]
                                            ++ t2)
                                    | General.Ok d =>
                                        (fst (General.enqueue_event
                                                event_queue
                                                (final_message context d) s1),
                                         snd (General.enqueue_event
                                                event_queue
                                                (final_message context d) s1),
                                         t1 ++ [run_async_call "a2a_user"
                                                  (context_id context)
                                                  (General.adk_content
                                                     agent_input_json)]
                                            ++ t2
                                            ++ [enqueue_event_call
                                                  (final_message context d)])
                                    end
                         end))).
Proof.
  cbv zeta. destruct (valid_request context) eqn:Hv.
  - right. split; [reflexivity|].
    destruct (valid_request_data context Hv) as (data & Hd & Hid & Hok).
    exists data. split; [exact Hd|].
    unfold General.execute_try, General.check_payload, General.run_async,
      General.lift, General.bind, General.ret, General.raise, General.invoke.
    cbv zeta. rewrite Hid, Hd, Hok. cbn [negb].
    destruct (json_dumps data) as [agent_input_json|r];
      [right|left; eexists; split; reflexivity].
    destruct (general_ensure_session (context_id context) s)
      as (rs & s1 & t1 & Hs & Ht1 & Hexc & Hfirst & _).
    exists agent_input_json, rs, s1, t1.
    split; [reflexivity|]. split; [exact Hs|]. split; [exact Ht1|].
    split; [apply Hfirst; exact Hid|].
    rewrite Hs. destruct rs as [[session|]|[e|c m]].
    + cbn [negb truthy truthy_option truthy_session].
      destruct (general_consume
                  (General.agent (General._adk_runner self)
                     (General.app_name (General._adk_runner self))
                     "a2a_user" (context_id context)
                     (General.adk_content agent_input_json) s1)
                  default_result s1) as (rc & t2 & Hc & Ht2 & _).
      exists rc, t2. split; [exact Hc|]. split; [exact Ht2|].
      rewrite Hc. destruct rc as [d|r].
      * destruct (General.enqueue_event event_queue _ s1) as [r1 s2] eqn:He.
        unfold final_message. rewrite ?He. cbn.
        try reflexivity; f_equal; same_trace.
      * cbn. try reflexivity; f_equal; same_trace.
    + cbn. try reflexivity; f_equal; same_trace.
    + exfalso. exact (Hexc e eq_refl).
    + split; [eauto|]. cbn. try reflexivity; f_equal; same_trace.
  - left. split; [reflexivity|].
    unfold General.execute_try, General.check_payload, General.bind,
      General.ret, General.raise.
    unfold valid_request, validation_error in *.
    destruct (truthy (context_id context)); cbn [negb andb] in *;
      [|reflexivity].
    destruct (agent_input_data_of context) as [data|]; [|reflexivity].
    cbn [truthy truthy_option].
    replace (negb (truthy data) || negb (dict_contains "trade_proposal" data)
             || negb (dict_contains "portfolio_state" data)) with true;
      [reflexivity|].
    destruct (truthy data), (dict_contains "trade_proposal" data),
      (dict_contains "portfolio_state" data); try reflexivity;
      discriminate Hv.
Qed.

End GeneralSteps.

(** The six ways of the [try], each with its equation [Htry]. *)
Tactic Notation "general_paths" constr(dumps) constr(executor)
    constr(queue) constr(request) constr(world) :=
  let rs := fresh "rs" in
  let rc := fresh "rc" in
  let Hrs := fresh "Hrs" in
  destruct (general_execute_try_paths dumps executor queue request world)
    as [[Hv Htry]
       |(Hv & data & Hd
         & [(r & Hjson & Htry)
           |(agent_input_json & rs & s1 & t1 & Hjson & Hs & Ht1 & Hfirst
             & Hrs)])];
    [ | | destruct rs as [[session|]|r];
          [ destruct Hrs as (rc & t2 & Hc & Ht2 & Htry);
            destruct rc as [d|r]
          | rename Hrs into Htry
          | destruct Hrs as ((c & m & ->) & Htry) ] ].

(** C1, as the specification words it, fails in two ways.  When the
    queue's [enqueue_event] raises, the [enqueue_event] of line 147 is
    followed by the one of line 166: two calls, and the exception of the
    second leaves [execute].  When the runner's stream raises
    [CancelledError], no [except Exception] clause catches it: nothing is
    enqueued and the exception leaves [execute]. *)
Lemma execute_lets_exceptions_out :
  (let r := General.execute (total_dumps sample_dumps)
              (general_executor sample_executor) sample_request
              refusing_queue ∅ in
   General.outcome r
   = General.Raised
       (General.exception (OtherException "RuntimeError" "queue unavailable"))
   /\ length (enqueued (General.trace r)) = 2
   /\ count is_close (General.trace r) = 1)
  /\ (let r := General.execute (total_dumps sample_dumps)
                 (General.__init__ cancelled_agent
                    (general_service InMemorySessionService))
                 sample_request General.reliable_queue ∅ in
      General.outcome r
      = General.Raised (General.base_exception "CancelledError" "")
      /\ enqueued (General.trace r) = []
      /\ count is_close (General.trace r) = 1).
Proof.
  split; vm_compute; repeat split.
Qed.

(** C1, amended. For every request, valid or not, and on every failure
    of the session service, of [json.dumps] or of the runner's stream that
    is an instance of [Exception], provided the queue's [enqueue_event]
    and [close] return: one call of [execute] returns normally, makes
    exactly one [enqueue_event] call and closes the queue exactly once,
    after the message. *)
Theorem execute_answers_once {ω : Type}
    (json_dumps : dict -> General.result string)
    (self : General.RiskGuardAgentExecutor ω) (context : RequestContext)
    (event_queue : General.EventQueue ω) (s : ω) :
  accepts event_queue ->
  raises_only_exceptions json_dumps self ->
  let r := General.execute json_dumps self context event_queue s in
  General.outcome r = General.Ok tt
  /\ exists m,
       enqueued (General.trace r) = [m]
       /\ count is_close (General.trace r) = 1
       /\ exists t, General.trace r = t ++ [enqueue_event_call m; close_call].
Proof.
  intros Hq (Hjd & Hget & Hcreate & Hagent). cbv zeta.
  rewrite (general_execute_outcome json_dumps self event_queue context s Hq).
  rewrite general_execute_trace.
  general_paths json_dumps self event_queue context s;
    rewrite Htry; cbn [General.outcome General.trace fst snd].
  - split; [reflexivity|]. eexists. repeat split. exists []. reflexivity.
  - specialize (Hjd data). rewrite Hjson in Hjd.
    destruct r as [e|c m]; [|destruct Hjd].
    split; [reflexivity|]. eexists. repeat split. exists []. reflexivity.
  - destruct Hq as [Henq _].
    pose proof (Henq (final_message context d) s1) as He. rewrite He.
    destruct (session_calls_queue_free _ Ht1) as [Henq1 Hcl1].
    destruct (anext_calls_queue_free _ Ht2) as [Henq2 Hcl2].
    split; [reflexivity|]. exists (final_message context d).
    rewrite !enqueued_app, !count_app, Henq1, Hcl1, Henq2, Hcl2.
    repeat split. eexists (t1 ++ [_] ++ t2). same_trace.
  - destruct (general_consume
                (General.agent (General._adk_runner self)
                   (General.app_name (General._adk_runner self))
                   "a2a_user" (context_id context)
                   (General.adk_content agent_input_json) s1)
                default_result s1) as (rc' & t2' & Hc' & _ & Hnb).
    rewrite Hc in Hc'. injection Hc' as <- <-.
    specialize (Hnb (Hagent _ _ _ _ _)).
    destruct r as [e|c m]; [|destruct Hnb].
    destruct (session_calls_queue_free _ Ht1) as [Henq1 Hcl1].
    destruct (anext_calls_queue_free _ Ht2) as [Henq2 Hcl2].
    split; [reflexivity|]. exists (error_message context e).
    rewrite !enqueued_app, !count_app, Henq1, Hcl1, Henq2, Hcl2.
    repeat split. eexists (t1 ++ [_] ++ t2). same_trace.
  - destruct (session_calls_queue_free _ Ht1) as [Henq1 Hcl1].
    split; [reflexivity|]. eexists.
    rewrite !enqueued_app, !count_app, Henq1, Hcl1.
    repeat split. exists t1. reflexivity.
  - exfalso.
    destruct (general_ensure_session self (context_id context) s)
      as (rs' & s1' & t1' & Hs' & _ & _ & _ & Hok).
    rewrite Hs in Hs'. injection Hs' as <- <- <-.
    destruct (Hok Hget Hcreate) as (o & Ho). discriminate Ho.
Qed.

Lemma execute_answers_once_witness :
  accepts (General.reliable_queue
             (ω := gmap (string * string * string) Session))
  /\ raises_only_exceptions (total_dumps sample_dumps)
       (general_executor crashing_executor)
  /\ (let r := General.execute (total_dumps sample_dumps)
                 (general_executor crashing_executor) sample_request
                 General.reliable_queue ∅ in
      General.outcome r = General.Ok tt
      /\ exists m,
           enqueued (General.trace r) = [m]
           /\ count is_close (General.trace r) = 1
           /\ exists t,
                General.trace r = t ++ [enqueue_event_call m; close_call]).
Proof.
  assert (Hq : accepts (General.reliable_queue
                          (ω := gmap (string * string * string) Session)))
    by (split; reflexivity).
  assert (He : raises_only_exceptions (total_dumps sample_dumps)
                 (general_executor crashing_executor))
    by (repeat split; intros; simpl; exact I).
  split; [exact Hq|]. split; [exact He|].
  apply (execute_answers_once (total_dumps sample_dumps)
           (general_executor crashing_executor) sample_request
           General.reliable_queue ∅ Hq He).
Defined.

(** X17. In every environment, whatever the queue, the session service,
    [json.dumps] or the runner's stream return or raise ([BaseException]s
    included), [execute] calls [close] exactly once, and it is its last
    call. *)
Theorem execute_closes_once {ω : Type}
    (json_dumps : dict -> General.result string)
    (self : General.RiskGuardAgentExecutor ω) (context : RequestContext)
    (event_queue : General.EventQueue ω) (s : ω) :
  exists t,
    General.trace (General.execute json_dumps self context event_queue s)
    = t ++ [close_call]
    /\ count is_close t = 0.
Proof.
  rewrite general_execute_trace.
  general_paths json_dumps self event_queue context s;
    rewrite Htry; cbn [General.outcome General.trace fst snd];
    try destruct (session_calls_queue_free _ Ht1) as [Henq1 Hcl1];
    try destruct (anext_calls_queue_free _ Ht2) as [Henq2 Hcl2].
  - eexists. split; [reflexivity|reflexivity].
  - destruct r as [e|c m]; eexists; (split; [reflexivity|reflexivity]).
  - destruct (fst (General.enqueue_event event_queue _ s1)) as [u|[e|c m]];
      eexists; (split; [rewrite app_assoc; reflexivity|]);
      rewrite !count_app, Hcl1, Hcl2; reflexivity.
  - destruct r as [e|c m]; eexists;
      (split; [rewrite app_assoc; reflexivity|]);
      rewrite !count_app, Hcl1, Hcl2; reflexivity.
  - eexists. split; [rewrite app_assoc; reflexivity|].
    rewrite !count_app, Hcl1. reflexivity.
  - eexists. split; [rewrite app_assoc; reflexivity|].
    rewrite !count_app, Hcl1. reflexivity.
Qed.

Lemma answers_final_message (context : RequestContext) (d : dict) :
  answers context (final_message context d).
Proof. repeat split. eexists. reflexivity. Qed.

Lemma answers_error_message (context : RequestContext) (e : exn) :
  answers context (error_message context e).
Proof. repeat split. eexists. reflexivity. Qed.

(** X8. In every environment, each message [execute] hands to
    [enqueue_event] is an agent message with a single data part, stamped
    with the context id and the task id of the request; there are at most
    two such calls. *)
Theorem execute_reply_shape {ω : Type}
    (json_dumps : dict -> General.result string)
    (self : General.RiskGuardAgentExecutor ω) (context : RequestContext)
    (event_queue : General.EventQueue ω) (s : ω) :
  let r := General.execute json_dumps self context event_queue s in
  Forall (answers context) (enqueued (General.trace r))
  /\ length (enqueued (General.trace r)) <= 2.
Proof.
  cbv zeta. rewrite general_execute_trace.
  general_paths json_dumps self event_queue context s;
    rewrite Htry; cbn [General.outcome General.trace fst snd];
    try destruct (session_calls_queue_free _ Ht1) as [Henq1 Hcl1];
    try destruct (anext_calls_queue_free _ Ht2) as [Henq2 Hcl2];
    rewrite ?enqueued_app, ?Henq1, ?Henq2.
  - split; [repeat constructor; apply answers_error_message|cbn; lia].
  - destruct r as [e|c m]; cbn;
      (split; [repeat constructor; apply answers_error_message|cbn; lia]).
  - destruct (fst (General.enqueue_event event_queue _ s1)) as [u|[e|c m]];
      cbn;
      (split;
       [repeat constructor;
        first [apply answers_final_message|apply answers_error_message]
       |lia]).
  - destruct r as [e|c m]; cbn;
      (split; [repeat constructor; apply answers_error_message|cbn; lia]).
  - cbn. split; [repeat constructor; apply answers_error_message|lia].
  - cbn. split; [constructor|lia].
Qed.

(** X2. In every environment, [execute] calls the session service exactly
    for the requests that pass the validation of lines 36-52 and whose
    payload [json.dumps] serialises: an invalid request and a payload that
    makes [json.dumps] raise never reach [get_session] or
    [create_session]; every other request does. *)
Theorem execute_session_calls_iff {ω : Type}
    (json_dumps : dict -> General.result string)
    (self : General.RiskGuardAgentExecutor ω) (context : RequestContext)
    (event_queue : General.EventQueue ω) (s : ω) :
  count is_session_call
    (General.trace (General.execute json_dumps self context event_queue s))
  = 0
  <-> valid_request context = false \/ serialised json_dumps context = None.
Proof.
  rewrite general_execute_trace. unfold serialised.
  general_paths json_dumps self event_queue context s;
    rewrite Htry; cbn [General.outcome General.trace fst snd];
    rewrite ?Hd, ?Hjson, ?Hv.
  - split; [auto|reflexivity].
  - split; [auto|]. intros _. destruct r; reflexivity.
  - destruct Hfirst as (c & t' & ->). apply Forall_cons_iff in Ht1 as [Hcall _].
    split; [|intros [?|?]; discriminate].
    cbn [app]. unfold count. cbn [List.filter]. rewrite Hcall.
    discriminate.
  - destruct Hfirst as (c & t' & ->). apply Forall_cons_iff in Ht1 as [Hcall _].
    split; [|intros [?|?]; discriminate].
    cbn [app]. unfold count. cbn [List.filter]. rewrite Hcall.
    discriminate.
  - destruct Hfirst as (c & t' & ->). apply Forall_cons_iff in Ht1 as [Hcall _].
    split; [|intros [?|?]; discriminate].
    cbn [app]. unfold count. cbn [List.filter]. rewrite Hcall.
    discriminate.
  - destruct Hfirst as (c' & t' & ->). apply Forall_cons_iff in Ht1 as [Hcall _].
    split; [|intros [?|?]; discriminate].
    cbn [app]. unfold count. cbn [List.filter]. rewrite Hcall.
    discriminate.
Qed.

(** X16. In every environment whose session service and [json.dumps]
    raise instances of [Exception] only: when [execute] does not get to
    call [run_async], it makes one [enqueue_event] call, with a refusal
    whose reason is "An internal error occurred: " followed by one of
    four messages: the context id is missing, the payload lacks
    ['trade_proposal'] or ['portfolio_state'], the session could not be
    established for the session id of the request, or the message of the
    exception [json.dumps] raised on the payload. *)
Theorem execute_refusal_reasons {ω : Type}
    (json_dumps : dict -> General.result string)
    (self : General.RiskGuardAgentExecutor ω) (context : RequestContext)
    (event_queue : General.EventQueue ω) (s : ω) :
  dumps_raises_only_exceptions json_dumps ->
  service_raises_only_exceptions self ->
  count is_run_async
    (General.trace (General.execute json_dumps self context event_queue s))
  = 0 ->
  exists reply msg,
    enqueued
      (General.trace (General.execute json_dumps self context event_queue s))
    = [reply]
    /\ verdict_of reply
       = Some (refusal ("An internal error occurred: " ++ msg))
    /\ (msg = "Context ID is missing, cannot execute."
        \/ msg = "Missing 'trade_proposal' or 'portfolio_state' in data payload"
        \/ msg = ("Failed to establish ADK session. session_id was '"
                    ++ fmt (context_id context) ++ "'.")%string
        \/ exists data e,
             agent_input_data_of context = Some data
             /\ json_dumps data = General.Raised (General.exception e)
             /\ msg = str e).
Proof.
  intros Hjd [Hget Hcreate]. rewrite general_execute_trace.
  general_paths json_dumps self event_queue context s;
    rewrite Htry; cbn [General.outcome General.trace fst snd]; intros Hrun.
  - exists (error_message context (validation_error context)).
    exists (str (validation_error context)).
    split; [reflexivity|]. split; [reflexivity|].
    unfold validation_error. destruct (truthy (context_id context)); auto.
  - specialize (Hjd data). rewrite Hjson in Hjd.
    destruct r as [e|c m]; [|destruct Hjd].
    exists (error_message context e), (str e).
    split; [reflexivity|]. split; [reflexivity|].
    right. right. right. eauto.
  - exfalso. rewrite !count_app in Hrun. cbn in Hrun. lia.
  - exfalso. rewrite !count_app in Hrun. cbn in Hrun. lia.
  - exists (error_message context (no_session (context_id context))).
    exists (str (no_session (context_id context))).
    rewrite !enqueued_app.
    destruct (session_calls_queue_free _ Ht1) as [-> _].
    split; [reflexivity|]. split; [reflexivity|]. auto.
  - exfalso.
    destruct (general_ensure_session self (context_id context) s)
      as (rs' & s1' & t1' & Hs' & _ & _ & _ & Hok).
    rewrite Hs in Hs'. injection Hs' as <- <- <-.
    destruct (Hok Hget Hcreate) as (o & Ho). discriminate Ho.
Qed.

Lemma execute_refusal_reasons_witness :
  dumps_raises_only_exceptions failing_dumps
  /\ service_raises_only_exceptions (general_executor sample_executor)
  /\ exists reply msg,
       enqueued
         (General.trace
            (General.execute failing_dumps (general_executor sample_executor)
               sample_request refusing_queue ∅))
       = [reply]
       /\ verdict_of reply
          = Some (refusal ("An internal error occurred: " ++ msg))
       /\ (msg = "Context ID is missing, cannot execute."
           \/ msg = "Missing 'trade_proposal' or 'portfolio_state' in data payload"
           \/ msg = ("Failed to establish ADK session. session_id was '"
                       ++ fmt (context_id sample_request) ++ "'.")%string
           \/ exists data e,
                agent_input_data_of sample_request = Some data
                /\ failing_dumps data = General.Raised (General.exception e)
                /\ msg = str e).
Proof.
  assert (Hd : dumps_raises_only_exceptions failing_dumps)
    by (intros d; exact I).
  assert (Hs : service_raises_only_exceptions
                 (general_executor sample_executor))
    by (split; intros; simpl; exact I).
  split; [exact Hd|]. split; [exact Hs|].
  apply (execute_refusal_reasons failing_dumps
           (general_executor sample_executor) sample_request refusing_queue
           ∅ Hd Hs).
  reflexivity.
Defined.

(** ** The two embeddings agree

    In an environment whose queue takes every call, whose [json.dumps]
    serialises every payload and whose collaborators raise instances of
    [Exception] only, [General.execute] is the [execute] of the first
    embedding. *)

Lemma general_ensure_session_agrees {σ : Type}
    (self : RiskGuardAgentExecutor σ) (sid : option string) (s : σ) :
  General.ensure_session (general_executor self) sid s
  = general_run (ensure_session self sid s).
Proof.
  unfold General.ensure_session, ensure_session, general_run.
  destruct sid as [sid|]; [|reflexivity].
  destruct (truthy (Some sid)); [|reflexivity].
  unfold General.bind, General.try_except, General.invoke, General.ret.
  unfold bind, try_except, invoke, ret. cbn.
  destruct (get_session _ _ _ _ s) as [[[session|]|e_get] s1]; cbn;
    try reflexivity;
    destruct (create_session _ _ _ _ _ s1) as [[created_|e_create] s2];
    reflexivity.
Qed.

Lemma general_consume_agrees {σ : Type} (events : AsyncGenerator)
    (acc : dict) (s : σ) :
  General.consume (general_generator events) acc s
  = general_run (consume events acc s).
Proof.
  unfold general_run.
  induction events as [|e|ev rest IH];
    cbn [general_generator General.consume consume]; try reflexivity.
  unfold General.bind, General.invoke, bind, emit.
  destruct (risk_check_result_of ev) as [d|]; [reflexivity|].
  rewrite IH. destruct (consume rest acc s) as [[r s1] t]. reflexivity.
Qed.

Lemma general_execute_agrees {σ : Type} (json_dumps : dict -> string)
    (self : RiskGuardAgentExecutor σ) (context : RequestContext) (s : σ) :
  General.execute (total_dumps json_dumps) (general_executor self) context
    General.reliable_queue s
  = general_run (execute json_dumps self context s).
Proof.
  unfold General.execute, General.try_finally, General.try_except.
  unfold execute, try_finally, try_except, general_run.
  unfold General.execute_try, execute_try, General.check_payload,
    check_payload, General.run_async, run_async, General.lift, total_dumps.
  unfold General.bind, General.ret, General.raise, General.invoke.
  unfold bind, ret, raise, emit. cbv zeta.
  destruct (truthy (context_id context)); cbn [negb]; [|reflexivity].
  destruct (agent_input_data_of context) as [data|]; [|reflexivity].
  destruct (_ || _ || _); [reflexivity|].
  rewrite general_ensure_session_agrees. unfold general_run.
  destruct (ensure_session self (context_id context) s) as [[[o|e] s1] t1];
    cbn [outcome store trace fst snd general_result]; [|reflexivity].
  destruct o as [session|]; cbn [negb truthy truthy_option truthy_session];
    [|reflexivity].
  change (General.agent (General._adk_runner (general_executor self))
            (General.app_name (General._adk_runner (general_executor self)))
            "a2a_user" (context_id context)
            (General.adk_content (json_dumps data)) s1)
    with (general_generator
            (agent (_adk_runner self) (app_name (_adk_runner self))
               "a2a_user" (context_id context)
               (adk_content_of json_dumps data) s1)).
  rewrite general_consume_agrees. unfold general_run.
  destruct (consume _ default_result s1) as [[[d|e] s2] t2]; reflexivity.
Qed.
